(** * A shallow embedding of [server.js]

    The gateway of [server.js] is an Express application with three POST
    routes ([/translate], [/summarize], [/analyze-symptoms]) that share a
    request quota ([apiLimiter]), an expiring cache ([cache]), a retry helper
    ([retryRequest]) and a socket.io status channel ([io.emit]).

    The embedding follows the source function by function.  Asynchronous
    code is written in a small state-and-exception monad [M]: the state is
    the cache together with the ordered trace of the effects the code
    performs (HTTP posts, timers, cache accesses, status events), and an
    exception is a JavaScript [throw] / rejected promise.  The outside world
    (what the providers answer, what the clock shows) is an explicit
    environment [env], so every statement quantifies over all possible
    upstream behaviours. *)

From Stdlib Require Import ZArith QArith String Ascii List Lia.
From stdpp Require Import gmap strings list pretty.

Set Warnings "-register-all".
Open Scope string_scope.
Open Scope Z_scope.

(* ================================================================== *)
(** ** JavaScript values, as far as [server.js] inspects them *)
(* ================================================================== *)

Module Js.

(** The numbers of the embedding are the safe integers, those of absolute
    value at most [Number.MAX_SAFE_INTEGER = 2^53 - 1].  Each of them is a
    binary64 value, two of them are the same number only when they are
    the same integer, and Number::toString prints them as their decimal
    digits.  Fractions, larger numbers (printed with rounded digits, and
    in exponent notation from [1e21]), NaN and the infinities are not
    values of the embedding. *)
Definition is_safe_integer (z : Z) : bool := Z.abs z <=? 2 ^ 53 - 1.

Record safe_integer : Type := mkSafe {
  int_value : Z;
  int_is_safe : Is_true (is_safe_integer int_value)
}.

(** Values that come out of [JSON.parse] (request bodies, provider
    responses), plus [undefined].  Numbers inside such values are safe
    integers; strings are sequences of code units below 256. *)
Inductive value : Type :=
| VUndefined
| VNull
| VBool (b : bool)
| VNum (n : safe_integer)
| VStr (s : string)
| VArr (xs : list value)
| VObj (fields : list (string * value)).

(** What a [throw] carries.  [AxiosError] is the rejection of
    [axios.post]: [response] is present when the server answered with a
    status outside 2xx and absent when no answer arrived. *)
Record response : Type := mkResponse {
  status : Z;
  headers : gmap string string;
  data : value
}.

Inductive error : Type :=
| AxiosError (message : string) (resp : option response)
| TypeError (message : string)
| JsError (message : string).

(** [error.message] *)
Definition error_message (e : error) : string :=
  match e with
  | AxiosError m _ => m
  | TypeError m => m
  | JsError m => m
  end.

Inductive completion (A : Type) : Type :=
| Normal (a : A)
| Throw (e : error).
Arguments Normal {A} a.
Arguments Throw {A} e.

(** [if (v)], [!v], [v || w]: ToBoolean. *)
Definition truthy (v : value) : bool :=
  match v with
  | VUndefined | VNull => false
  | VBool b => b
  | VNum n => negb (int_value n =? 0)
  | VStr s => negb (String.eqb s "")
  | VArr _ | VObj _ => true
  end.

(** [a === b].  Objects and arrays are compared by identity; two values
    that were parsed from different messages are never the same object. *)
Definition strict_eq (a b : value) : bool :=
  match a, b with
  | VUndefined, VUndefined => true
  | VNull, VNull => true
  | VBool x, VBool y => Bool.eqb x y
  | VNum x, VNum y => int_value x =? int_value y
  | VStr x, VStr y => String.eqb x y
  | _, _ => false
  end.

Fixpoint lookup_field (k : string) (fields : list (string * value)) : value :=
  match fields with
  | [] => VUndefined
  | (k', v) :: rest => if String.eqb k k' then v else lookup_field k rest
  end.

Definition nullish_name (v : value) : string :=
  match v with VNull => "null" | _ => "undefined" end.

(** [v.k] for a property name [k] that no built-in prototype defines
    (every name [server.js] reads: [text], [error], [message], [data],
    [choices], ...).  Reading a property of [undefined] or [null] throws;
    the message is V8's. *)
Definition get_field (v : value) (k : string) : completion value :=
  match v with
  | VUndefined | VNull =>
      Throw (TypeError ("Cannot read properties of " ++ nullish_name v
                          ++ " (reading '" ++ k ++ "')"))
  | VObj fields => Normal (lookup_field k fields)
  | _ => Normal VUndefined
  end.

(** [const { k } = v], where [src] is the text of the expression [v]:
    destructuring [undefined] or [null] throws. *)
Definition destructure (v : value) (k src : string) : completion value :=
  match v with
  | VUndefined | VNull =>
      Throw (TypeError ("Cannot destructure property '" ++ k ++ "' of '"
                          ++ src ++ "' as it is " ++ nullish_name v ++ "."))
  | _ => get_field v k
  end.

(** [v[0]] *)
Definition get_index0 (v : value) : completion value :=
  match v with
  | VUndefined | VNull =>
      Throw (TypeError ("Cannot read properties of " ++ nullish_name v
                          ++ " (reading '0')"))
  | VArr xs => Normal (hd VUndefined xs)
  | VStr (String c _) => Normal (VStr (String c EmptyString))
  | VObj fields => Normal (lookup_field "0" fields)
  | _ => Normal VUndefined
  end.

(** [Array.prototype.join(',')] pieces: [undefined] and [null] print as
    the empty string inside an array. *)
Definition join_with (sep : string) (l : list string) : string :=
  match l with
  | [] => ""
  | x :: rest => fold_left (fun acc y => acc ++ sep ++ y) rest x
  end.

(** An object has an own property [k]. *)
Fixpoint has_own (k : string) (fields : list (string * value)) : bool :=
  match fields with
  | [] => false
  | (k', _) :: rest => String.eqb k k' || has_own k rest
  end.

(** Template-literal interpolation [`${v}`]: ToString.

    An object is converted with its [toString] method.  A parsed object
    inherits [Object.prototype.toString], which prints [[object Object]],
    unless it has an own [toString] property; that property holds a parsed
    value, which is never callable, and the conversion then falls back on
    [valueOf], which does not give a primitive either: a TypeError is
    thrown (the message is V8's).  An array is converted with [join]:
    its elements are converted from left to right, [undefined] and [null]
    printing as the empty string, and the first element that throws makes
    the conversion throw. *)
Fixpoint to_string (v : value) : completion string :=
  match v with
  | VUndefined => Normal "undefined"
  | VNull => Normal "null"
  | VBool true => Normal "true"
  | VBool false => Normal "false"
  | VNum n => Normal (pretty (int_value n))
  | VStr s => Normal s
  | VArr xs =>
      match
        (fix pieces (l : list value) : completion (list string) :=
           match l with
           | [] => Normal []
           | x :: rest =>
               match (match x with
                      | VUndefined | VNull => Normal ""
                      | _ => to_string x
                      end) with
               | Normal s =>
                   match pieces rest with
                   | Normal ss => Normal (s :: ss)
                   | Throw e => Throw e
                   end
               | Throw e => Throw e
               end
           end) xs
      with
      | Normal ss => Normal (join_with "," ss)
      | Throw e => Throw e
      end
  | VObj fields =>
      if has_own "toString" fields
      then Throw (TypeError "Cannot convert object to primitive value")
      else Normal "[object Object]"
  end.

(** [s.includes(sub)] on strings. *)
Fixpoint includes (s sub : string) : bool :=
  if String.prefix sub s then true
  else match s with
       | EmptyString => false
       | String _ s' => includes s' sub
       end.

(** White space of [String.prototype.trim] and of ToNumber, among the
    code units below 256: TAB, LF, VT, FF, CR, SP, NBSP. *)
Definition is_ws (c : ascii) : bool :=
  match N_of_ascii c with
  | 9%N | 10%N | 11%N | 12%N | 13%N | 32%N | 160%N => true
  | _ => false
  end.

Fixpoint trim_start (s : string) : string :=
  match s with
  | String c s' => if is_ws c then trim_start s' else s
  | EmptyString => EmptyString
  end.

Definition trim (s : string) : string :=
  String.rev (trim_start (String.rev (trim_start s))).

(** *** Numbers of the delay arithmetic

    [retryRequest] computes with [initialDelay] and the [retry-after]
    header.  A number is NaN, an infinity or a rational; the rational is
    kept reduced so that equal numbers are equal terms.  Arithmetic is
    exact: on the values the server computes with (2000 doubled up to five
    times, divided and multiplied by 1000, whole seconds of a header) the
    binary64 operations of the runtime are exact as well. *)
Inductive number : Type :=
| NaN
| Inf (negative : bool)
| Fin (q : Q).

Definition of_Z (z : Z) : number := Fin (inject_Z z).

Definition nmul (a b : number) : number :=
  match a, b with
  | NaN, _ | _, NaN => NaN
  | Fin x, Fin y => Fin (Qred (x * y))
  | Inf s, Inf t => Inf (xorb s t)
  | Inf s, Fin y | Fin y, Inf s =>
      match (y ?= 0)%Q with
      | Eq => NaN
      | Gt => Inf s
      | Lt => Inf (negb s)
      end
  end.

Definition ndiv (a b : number) : number :=
  match a, b with
  | NaN, _ | _, NaN => NaN
  | Inf _, Inf _ => NaN
  | Inf s, Fin y => match (y ?= 0)%Q with Lt => Inf (negb s) | _ => Inf s end
  | Fin _, Inf _ => Fin 0
  | Fin x, Fin y =>
      match (y ?= 0)%Q with
      | Eq => match (x ?= 0)%Q with
              | Eq => NaN
              | Gt => Inf false
              | Lt => Inf true
              end
      | _ => Fin (Qred (x / y))
      end
  end.

(** *** ToNumber on strings (StringNumericLiteral) *)

Definition digit_of (base : Z) (c : ascii) : option Z :=
  let n := Z.of_N (N_of_ascii c) in
  let d := if (48 <=? n) && (n <=? 57) then Some (n - 48)
           else if (97 <=? n) && (n <=? 102) then Some (n - 87)
           else if (65 <=? n) && (n <=? 70) then Some (n - 55)
           else None in
  match d with
  | Some v => if v <? base then Some v else None
  | None => None
  end.

(** The longest run of digits at the front of [s]: its value, its length
    and what follows it. *)
Fixpoint take_digits (base : Z) (s : string) (acc : Z) (n : nat)
  : Z * nat * string :=
  match s with
  | String c s' =>
      match digit_of base c with
      | Some d => take_digits base s' (acc * base + d) (S n)
      | None => (acc, n, s)
      end
  | EmptyString => (acc, n, s)
  end.

Definition all_digits (base : Z) (s : string) : number :=
  match take_digits base s 0 0 with
  | (v, S _, EmptyString) => of_Z v
  | _ => NaN
  end.

Definition pow10 (e : Z) : Q :=
  if 0 <=? e then inject_Z (10 ^ e) else (1 / inject_Z (10 ^ (- e)))%Q.

Definition exponent_part (r : string) : option Z :=
  match r with
  | EmptyString => Some 0
  | String c r' =>
      if Ascii.eqb c "e" || Ascii.eqb c "E" then
        let '(neg, r'') :=
          match r' with
          | String "-" x => (true, x)
          | String "+" x => (false, x)
          | _ => (false, r')
          end in
        match take_digits 10 r'' 0 0 with
        | (v, S _, EmptyString) => Some (if neg : bool then - v else v)
        | _ => None
        end
      else None
  end.

Definition StrUnsignedDecimalLiteral (s : string) : number :=
  if String.eqb s "Infinity" then Inf false
  else
    let '(ip, ni, r1) := take_digits 10 s 0 0 in
    let '(fp, nf, r2) :=
      match r1 with
      | String "." r => take_digits 10 r 0 0
      | _ => (0, 0%nat, r1)
      end in
    if (ni + nf =? 0)%nat then NaN
    else
      match exponent_part r2 with
      | Some e =>
          Fin (Qred (inject_Z (ip * 10 ^ Z.of_nat nf + fp)
                     * pow10 (e - Z.of_nat nf)))
      | None => NaN
      end.

Definition nneg (a : number) : number := nmul (of_Z (-1)) a.

Definition StringToNumber (str : string) : number :=
  match trim str with
  | EmptyString => of_Z 0
  | String "0" (String c r) as s =>
      if Ascii.eqb c "x" || Ascii.eqb c "X" then all_digits 16 r
      else if Ascii.eqb c "o" || Ascii.eqb c "O" then all_digits 8 r
      else if Ascii.eqb c "b" || Ascii.eqb c "B" then all_digits 2 r
      else StrUnsignedDecimalLiteral s
  | String "+" r => StrUnsignedDecimalLiteral r
  | String "-" r => nneg (StrUnsignedDecimalLiteral r)
  | s => StrUnsignedDecimalLiteral s
  end.

End Js.

Import Js.

(* ================================================================== *)
(** ** The cache: [new NodeCache({ stdTTL: 3600 })] *)
(* ================================================================== *)

Module Cache.

(** [stdTTL: 3600], in seconds (server.js, line 29). *)
Definition stdTTL : Z := 3600.

(** An entry is the stored value with the clock reading (milliseconds)
    after which it is no longer served. *)
Abbreviation store := (gmap string (value * Z)).

Definition empty : store := ∅.

(** Modelled from the spec: the cache object is built by the [node-cache]
    package, whose code is not part of the repository; [server.js] only
    fixes the time to live.  The spec's contract is: "entries are visible
    immediately after set; a get strictly after TTL elapses (relative to
    the set time) must report miss", and an entry is "overwritten on
    recomputation".  [set] stamps the entry with the time of the call plus
    the time to live. *)
Definition set (now : Z) (key : string) (v : value) (c : store) : store :=
  <[key := (v, now + stdTTL * 1000)]> c.

(** Modelled from the spec: [get(key) -> value | miss], the miss being
    [None]; see [set]. *)
Definition get (now : Z) (key : string) (c : store) : option value :=
  match c !! key with
  | Some (v, expiry) => if expiry <? now then None else Some v
  | None => None
  end.

End Cache.

(* ================================================================== *)
(** ** Effects, the environment and the monad of handlers *)
(* ================================================================== *)

(** Bodies of the three kinds of outbound requests. *)
Inductive payload : Type :=
| DetectBody (q : value)
| TranslateBody (q source target : value) (format : string)
| ChatBody (system user : string) (max_tokens : Z) (temperature : Q)
           (top_p : option Q).

(** Request headers handed to [axios.post]; a header whose value is
    [undefined] is [None]. *)
Definition req_headers : Type := list (string * option string).

Inductive effect : Type :=
| Post (url : string) (body : payload) (hdrs : req_headers)
| SetTimeout (delay : number)
| ConsoleLog (seconds : number) (retries : nat)
| CacheGet (key : string)
| CacheSet (key : string) (v : value)
| Emit (action message : string).

(** What the network does with one POST. *)
Inductive reply : Type :=
| Responded (r : response)
| NoResponse (message : string).

(** The world outside the process.  [net n url body hdrs] is the outcome
    of the POST issued after [n] earlier POSTs of the same request;
    [Date_now k] is the clock (milliseconds) when [k] effects have been
    performed; the three remaining fields are [process.env]. *)
Record env : Type := mkEnv {
  net : nat -> string -> payload -> req_headers -> reply;
  Date_now : nat -> Z;
  env_GOOGLE_TRANSLATION_API_KEY : option string;
  env_AZURE_AI_API_KEY : option string;
  env_AZURE_AI_ENDPOINT : option string
}.

Record world : Type := mkWorld {
  w_cache : Cache.store;
  w_trace : list effect
}.

Definition M (A : Type) : Type := world -> completion A * world.

Definition ret {A} (a : A) : M A := fun w => (Normal a, w).

Definition throw {A} (e : error) : M A := fun w => (Throw e, w).

Definition bind {A B} (m : M A) (k : A -> M B) : M B :=
  fun w =>
    match m w with
    | (Normal a, w') => k a w'
    | (Throw e, w') => (Throw e, w')
    end.

(** [try { m } catch (error) { h error }] *)
Definition try_catch {A} (m : M A) (h : error -> M A) : M A :=
  fun w =>
    match m w with
    | (Normal a, w') => (Normal a, w')
    | (Throw e, w') => h e w'
    end.

Definition lift {A} (c : completion A) : M A := fun w => (c, w).

Notation "x <- m ;; k" := (bind m (fun x => k))
  (at level 100, m at next level, right associativity).
Notation "m ;;; k" := (bind m (fun _ => k))
  (at level 100, right associativity).

Definition perform (e : effect) : M unit :=
  fun w => (Normal tt, mkWorld (w_cache w) (w_trace w ++ [e])).

Definition is_post (e : effect) : bool :=
  match e with Post _ _ _ => true | _ => false end.

Definition posts (t : list effect) : list effect := List.filter is_post t.

Section WithEnv.

Variable E : env.

(** [io.emit('status', { action, message })] *)
Definition io_emit (action message : string) : M unit :=
  perform (Emit action message).

(** [cache.get(key)]; a miss is [undefined]. *)
Definition cache_get (key : string) : M value :=
  fun w =>
    let now := Date_now E (length (w_trace w)) in
    (Normal (default VUndefined (Cache.get now key (w_cache w))),
     mkWorld (w_cache w) (w_trace w ++ [CacheGet key])).

(** [cache.set(key, v)] *)
Definition cache_set (key : string) (v : value) : M unit :=
  fun w =>
    let now := Date_now E (length (w_trace w)) in
    (Normal tt,
     mkWorld (Cache.set now key v (w_cache w)) (w_trace w ++ [CacheSet key v])).

(** How [axios.post] settles for a given outcome of the network: it
    resolves with the response on a 2xx status and rejects otherwise
    (axios' default [validateStatus]). *)
Definition axios_settle (rep : reply) : completion response :=
  match rep with
  | Responded r =>
      if (200 <=? status r) && (status r <? 300) then Normal r
      else Throw (AxiosError ("Request failed with status code "
                                ++ pretty (status r)) (Some r))
  | NoResponse m => Throw (AxiosError m None)
  end.

(** [await axios.post(url, body, { headers })] *)
Definition axios_post (url : string) (body : payload) (hdrs : req_headers)
  : M response :=
  fun w =>
    (axios_settle (net E (length (posts (w_trace w))) url body hdrs),
     mkWorld (w_cache w) (w_trace w ++ [Post url body hdrs])).

(* ================================================================== *)
(** ** [retryRequest] (server.js, lines 49-66) *)
(* ================================================================== *)

(** [error.response] *)
Definition error_response (e : error) : option response :=
  match e with
  | AxiosError _ r => r
  | _ => None
  end.

(** [message.includes('Quota exceeded')] for whatever [message] is: a
    string has [String.prototype.includes], an array has
    [Array.prototype.includes], and nothing else that JSON can hold has a
    callable [includes]. *)
Definition message_includes (m : value) (sub : string) : completion bool :=
  match m with
  | VStr s => Normal (includes s sub)
  | VArr xs => Normal (existsb (strict_eq (VStr sub)) xs)
  | VUndefined | VNull =>
      Throw (TypeError ("Cannot read properties of " ++ nullish_name m
                          ++ " (reading 'includes')"))
  | _ => Throw (TypeError
                  "error.response.data?.error?.message.includes is not a function")
  end.

(** [error.response.data?.error?.message.includes('Quota exceeded')] as a
    condition.  Each [?.] ends the whole chain with [undefined] (falsy)
    when what stands before it is [undefined] or [null]; [.includes] is
    reached through a plain [.]. *)
Definition quota_exceeded (d : value) : completion bool :=
  match d with
  | VUndefined | VNull => Normal false
  | _ =>
      match get_field d "error" with
      | Normal (VUndefined | VNull) => Normal false
      | Normal e =>
          match get_field e "message" with
          | Normal m => message_includes m "Quota exceeded"
          | Throw t => Throw t
          end
      | Throw t => Throw t
      end
  end.

(** [(error.response.headers['retry-after'] || initialDelay / 1000) * 1000]:
    an absent or empty header is falsy; a header that is there is a string
    and [*] converts it with ToNumber. *)
Definition retry_delay (hdrs : gmap string string) (initialDelay : number)
  : number :=
  let retryAfter :=
    match hdrs !! "retry-after" with
    | Some s => if String.eqb s "" then ndiv initialDelay (of_Z 1000)
                else StringToNumber s
    | None => ndiv initialDelay (of_Z 1000)
    end in
  nmul retryAfter (of_Z 1000).

(** The recursion is on [retries]: the source tests [retries > 0] and
    calls itself with [retries - 1].  [retries] counts whole attempts, as
    in every call the server makes. *)
Fixpoint retryRequest (url : string) (data : payload) (headers : req_headers)
    (retries : nat) (initialDelay : number) : M response :=
  try_catch (axios_post url data headers)
    (fun error =>
       match error_response error, retries with
       | Some resp, S retries_minus_1 =>
           if status resp =? 429 then
             q <- lift (quota_exceeded (Js.data resp)) ;;
             if q : bool then
               throw (JsError
                 "API quota exhausted. Please check your subscription.")
             else
               let delay := retry_delay (Js.headers resp) initialDelay in
               perform (ConsoleLog (ndiv delay (of_Z 1000)) retries) ;;;
               perform (SetTimeout delay) ;;;
               retryRequest url data headers retries_minus_1
                 (nmul initialDelay (of_Z 2))
           else throw error
       | _, _ => throw error
       end).

(** The default parameters [retries = 5, initialDelay = 2000]. *)
Definition retryRequest_default (url : string) (data : payload)
    (headers : req_headers) : M response :=
  retryRequest url data headers 5 (of_Z 2000).

(* ================================================================== *)
(** ** The three handlers (server.js, lines 74-225) *)
(* ================================================================== *)

(** What a handler sends: [res.status(code).json(body)]; [res.json(body)]
    is status 200. *)
Record http_response : Type := mkHttp {
  code : Z;
  body : value
}.

Definition res_json (v : value) : M http_response := ret (mkHttp 200 v).

Definition res_status_json (c : Z) (v : value) : M http_response :=
  ret (mkHttp c v).

(** [`${X}`] for an environment variable, which is a string or
    [undefined]. *)
Definition env_to_string (o : option string) : string :=
  default "undefined" o.

(** [!X] for an environment variable. *)
Definition env_falsy (o : option string) : bool :=
  match o with
  | Some s => String.eqb s ""
  | None => true
  end.

Definition GOOGLE_TRANSLATION_API_KEY : option string :=
  env_GOOGLE_TRANSLATION_API_KEY E.

Definition AZURE_AI_API_KEY : option string := env_AZURE_AI_API_KEY E.

(** [process.env.AZURE_AI_ENDPOINT || 'https://gendem...'] *)
Definition AZURE_AI_ENDPOINT : string :=
  if env_falsy (env_AZURE_AI_ENDPOINT E)
  then "https://gendem.cognitiveservices.azure.com/"
  else env_to_string (env_AZURE_AI_ENDPOINT E).

Definition detectUrl : string :=
  "https://translation.googleapis.com/language/translate/v2/detect?key="
  ++ env_to_string GOOGLE_TRANSLATION_API_KEY.

Definition translateUrl : string :=
  "https://translation.googleapis.com/language/translate/v2?key="
  ++ env_to_string GOOGLE_TRANSLATION_API_KEY.

Definition chatUrl : string :=
  AZURE_AI_ENDPOINT
  ++ "/openai/deployments/gpt-4o-mini/chat/completions?api-version=2024-12-01-preview".

Definition chatHeaders : req_headers :=
  [("Content-Type", Some "application/json"); ("api-key", AZURE_AI_API_KEY)].

(** The double-quote character. *)
Definition dquote : string := String (ascii_of_nat 34) EmptyString.

Definition summarize_prompt : string :=
  "You are an educational assistant. Summarize the provided text in simple language (up to 30 words). "
  ++ "Do not alter the meaning. Ensure clarity and conciseness.".

Definition symptoms_prompt : string :=
  "You are an educational health assistant, not a doctor. Suggest possible conditions in 30 words or less. "
  ++ "Suggest common over-the-counter medications or remedies in 20 words or less, if applicable. "
  ++ "Do not diagnose or prescribe. For serious symptoms (e.g., chest pain), urge immediate medical attention. "
  ++ "Include: " ++ dquote
  ++ "This is not a medical diagnosis or prescription. All suggestions must be verified by a healthcare professional."
  ++ dquote.

(** [limiter.schedule(() => f)]: Bottleneck runs the job once its single
    slot is free and hands back the job's own result or rejection.  The
    model runs one request at a time, so scheduling is the identity. *)
Definition limiter_schedule {A} (job : M A) : M A := job.

(** [v.trim()] *)
Definition value_trim (v : value) : completion value :=
  match v with
  | VStr s => Normal (VStr (trim s))
  | VUndefined | VNull =>
      Throw (TypeError ("Cannot read properties of " ++ nullish_name v
                          ++ " (reading 'trim')"))
  | _ => Throw (TypeError
                  "response.data.choices[0].message.content.trim is not a function")
  end.

(** [response.data.choices[0].message.content.trim()] *)
Definition chat_content (r : response) : completion value :=
  match get_field (Js.data r) "choices" with
  | Normal choices =>
      match get_index0 choices with
      | Normal c0 =>
          match get_field c0 "message" with
          | Normal m =>
              match get_field m "content" with
              | Normal c => value_trim c
              | Throw t => Throw t
              end
          | Throw t => Throw t
          end
      | Throw t => Throw t
      end
  | Throw t => Throw t
  end.

(** [detectResponse.data.data.detections[0][0].language] *)
Definition detected_language (r : response) : completion value :=
  match get_field (Js.data r) "data" with
  | Normal d =>
      match get_field d "detections" with
      | Normal ds =>
          match get_index0 ds with
          | Normal d0 =>
              match get_index0 d0 with
              | Normal d00 => get_field d00 "language"
              | Throw t => Throw t
              end
          | Throw t => Throw t
          end
      | Throw t => Throw t
      end
  | Throw t => Throw t
  end.

(** [translateResponse.data.data.translations[0].translatedText] *)
Definition translated_text (r : response) : completion value :=
  match get_field (Js.data r) "data" with
  | Normal d =>
      match get_field d "translations" with
      | Normal ts =>
          match get_index0 ts with
          | Normal t0 => get_field t0 "translatedText"
          | Throw t => Throw t
          end
      | Throw t => Throw t
      end
  | Throw t => Throw t
  end.

(** [app.post('/translate', apiLimiter, async (req, res) => ...)], the
    handler alone; [req_body] is [req.body]. *)
Definition translate_handler (req_body : value) : M http_response :=
  text <- lift (destructure req_body "text" "req.body") ;;
  targetLanguage <- lift (destructure req_body "targetLanguage" "req.body") ;;
  if negb (truthy text) || negb (truthy targetLanguage) then
    res_status_json 400
      (VObj [("error", VStr "Text and target language are required.")])
  else
    io_emit "translate" "Translating..." ;;;
    text_str <- lift (to_string text) ;;
    targetLanguage_str <- lift (to_string targetLanguage) ;;
    let cacheKey := "translate:" ++ text_str ++ ":" ++ targetLanguage_str in
    cachedResult <- cache_get cacheKey ;;
    if truthy cachedResult then
      io_emit "translate" "Translation complete (cached)." ;;;
      res_json cachedResult
    else
      try_catch
        (detectResponse <- axios_post detectUrl (DetectBody text) [] ;;
         detectedLanguage <- lift (detected_language detectResponse) ;;
         if strict_eq detectedLanguage targetLanguage then
           let result :=
             VObj [("detectedLanguage", detectedLanguage);
                   ("translatedText", text);
                   ("message", VStr "Same language detected.")] in
           cache_set cacheKey result ;;;
           io_emit "translate" "Translation complete." ;;;
           res_json result
         else
           translateResponse <-
             axios_post translateUrl
               (TranslateBody text detectedLanguage targetLanguage "text") [] ;;
           translatedText <- lift (translated_text translateResponse) ;;
           let result :=
             VObj [("detectedLanguage", detectedLanguage);
                   ("translatedText", translatedText)] in
           cache_set cacheKey result ;;;
           io_emit "translate" "Translation complete." ;;;
           res_json result)
        (fun error =>
           io_emit "translate" "Translation failed." ;;;
           res_status_json 500
             (VObj [("error", VStr "Translation failed");
                    ("details", VStr (error_message error))])).

(** [app.post('/summarize', apiLimiter, async (req, res) => ...)] *)
Definition summarize_handler (req_body : value) : M http_response :=
  text <- lift (destructure req_body "text" "req.body") ;;
  if negb (truthy text) then
    res_status_json 400 (VObj [("error", VStr "Text is required.")])
  else
    io_emit "summarize" "Summarizing..." ;;;
    text_str <- lift (to_string text) ;;
    let cacheKey := "summarize:" ++ text_str in
    cachedResult <- cache_get cacheKey ;;
    if truthy cachedResult then
      io_emit "summarize" "Summarization complete (cached)." ;;;
      res_json (VObj [("summary", cachedResult)])
    else if env_falsy AZURE_AI_API_KEY then
      io_emit "summarize" "Summarization failed." ;;;
      res_status_json 500
        (VObj [("error",
                VStr "API key not found. Set the AZURE_OPENAI_API_KEY environment variable.")])
    else
      try_catch
        (text_str' <- lift (to_string text) ;;
         response <-
           limiter_schedule
             (retryRequest_default chatUrl
                (ChatBody summarize_prompt ("Text: " ++ text_str')
                   150 0.7 (Some 1.0%Q))
                chatHeaders) ;;
         summary <- lift (chat_content response) ;;
         cache_set cacheKey summary ;;;
         io_emit "summarize" "Summarization complete." ;;;
         res_json (VObj [("summary", summary)]))
        (fun error =>
           io_emit "summarize" "Summarization failed." ;;;
           res_status_json 500
             (VObj [("error", VStr "Summarization failed");
                    ("details", VStr (error_message error))])).

(** [app.post('/analyze-symptoms', apiLimiter, async (req, res) => ...)] *)
Definition analyze_symptoms_handler (req_body : value) : M http_response :=
  symptoms <- lift (destructure req_body "symptoms" "req.body") ;;
  if negb (truthy symptoms) then
    res_status_json 400 (VObj [("error", VStr "Symptoms are required.")])
  else
    io_emit "symptoms" "Analyzing symptoms..." ;;;
    symptoms_str <- lift (to_string symptoms) ;;
    let cacheKey := "symptoms:" ++ symptoms_str in
    cachedResult <- cache_get cacheKey ;;
    if truthy cachedResult then
      io_emit "symptoms" "Analysis complete (cached)." ;;;
      res_json (VObj [("analysis", cachedResult)])
    else
      try_catch
        (symptoms_str' <- lift (to_string symptoms) ;;
         response <-
           limiter_schedule
             (retryRequest_default chatUrl
                (ChatBody symptoms_prompt ("Symptoms: " ++ symptoms_str')
                   150 0.7 None)
                chatHeaders) ;;
         analysis <- lift (chat_content response) ;;
         cache_set cacheKey analysis ;;;
         io_emit "symptoms" "Analysis complete." ;;;
         res_json (VObj [("analysis", analysis)]))
        (fun error =>
           io_emit "symptoms" "Analysis failed." ;;;
           res_status_json 500
             (VObj [("error", VStr "Symptom analysis failed");
                    ("details", VStr (error_message error))])).

End WithEnv.

(* ================================================================== *)
(** ** The request quota: [apiLimiter] (server.js, lines 37-46) *)
(* ================================================================== *)

Module RateLimit.

(** The options [server.js] passes to [rateLimit]. *)
Definition windowMs : Z := 60 * 1000.

Definition max : Z := 15.

Definition message : value :=
  VObj [("error", VStr "Too many requests, please try again after a minute.");
        ("details", VStr "API rate limits apply.")].

(** Per client: the hits of the running window and the clock reading at
    which the window ends. *)
Abbreviation store := (gmap string (Z * Z)).

Definition empty : store := ∅.

(** Modelled from the spec: the middleware is built by the
    [express-rate-limit] package, whose code is not part of the
    repository; [server.js] fixes the window, the maximum and the message.
    The spec's contract is "rate-limited to 15 requests/minute/client;
    excess requests receive a 429 with {error, details}".  A client's
    window opens with its first request and lasts [windowMs]; every
    request inside the window counts, also a rejected one. *)
Definition increment (now : Z) (key : string) (s : store) : Z * store :=
  match s !! key with
  | Some (hits, resetTime) =>
      if now <? resetTime
      then (hits + 1, <[key := (hits + 1, resetTime)]> s)
      else (1, <[key := (1, now + windowMs)]> s)
  | None => (1, <[key := (1, now + windowMs)]> s)
  end.

End RateLimit.

(** Modelled from the spec: the middleware that [rateLimit] returns
    (see [RateLimit.increment]); "excess requests receive a 429 with
    {error, details}".  The result is [Some r] when the middleware answers
    in place of the handler and [None] when it calls [next()]. *)
Definition apiLimiter (now : Z) (ip : string) (s : RateLimit.store)
  : option http_response * RateLimit.store :=
  let '(totalHits, s') := RateLimit.increment now ip s in
  if RateLimit.max <? totalHits
  then (Some (mkHttp 429 RateLimit.message), s')
  else (None, s').

(* ================================================================== *)
(** ** The routes *)
(* ================================================================== *)

Inductive route : Type :=
| Translate        (* POST /translate *)
| Summarize        (* POST /summarize *)
| AnalyzeSymptoms. (* POST /analyze-symptoms *)

Record request : Type := mkRequest {
  req_ip : string;
  req_route : route;
  req_body : value
}.

(** The process-wide singletons: one quota store and one cache for all
    routes. *)
Record server : Type := mkServer {
  srv_limiter : RateLimit.store;
  srv_cache : Cache.store
}.

(** The state after the top-level statements of [server.js] have run.
    None of them reads an API key. *)
Definition startup (E : env) : server := mkServer RateLimit.empty Cache.empty.

(** What one request produces: the answer (or the exception that escapes
    the handler) and the effects performed on the way. *)
Record outcome : Type := mkOutcome {
  sent : completion http_response;
  effects : list effect
}.

Definition handler_of (E : env) (r : route) : value -> M http_response :=
  match r with
  | Translate => translate_handler E
  | Summarize => summarize_handler E
  | AnalyzeSymptoms => analyze_symptoms_handler E
  end.

(** [app.post(path, apiLimiter, handler)]: the same [apiLimiter] stands in
    front of each of the three handlers.  The request arrives when the
    clock shows [Date_now E 0]. *)
Definition app_post (E : env) (rq : request) (s : server) : outcome * server :=
  match apiLimiter (Date_now E 0) (req_ip rq) (srv_limiter s) with
  | (Some r, l') => (mkOutcome (Normal r) [], mkServer l' (srv_cache s))
  | (None, l') =>
      let '(c, w) :=
        handler_of E (req_route rq) (req_body rq) (mkWorld (srv_cache s) []) in
      (mkOutcome c (w_trace w), mkServer l' (w_cache w))
  end.

(** Requests served one after the other, each in its own environment. *)
Fixpoint run (reqs : list (env * request)) (s : server)
  : list outcome * server :=
  match reqs with
  | [] => ([], s)
  | (E, rq) :: rest =>
      let '(o, s') := app_post E rq s in
      let '(os, s'') := run rest s' in
      (o :: os, s'')
  end.

(* ================================================================== *)
(** ** The key-checking script [api.js] *)
(* ================================================================== *)

Module ApiTest.

(** One argument of a console call: a string, a value or a number printed
    as it is, the text [JSON.stringify(x, null, 2)] of a value, of a
    request body or of the headers of a response, or a caught error. *)
Inductive arg : Type :=
| Str (s : string)
| Val (v : value)
| Num (z : Z)
| Json (v : value)
| JsonBody (p : payload)
| JsonHeaders (h : gmap string string)
| ErrVal (e : error).

(** What the script does: console lines, POSTs, and calls of
    [logApiError], which only writes the description of an error to the
    console. *)
Inductive out : Type :=
| Log (args : list arg)
| Err (args : list arg)
| LogApiError (e : error) (apiName : string)
| HttpPost (url : string) (body : payload) (hdrs : req_headers).

Definition T (A : Type) : Type := list out -> completion A * list out.

Definition ret {A} (a : A) : T A := fun t => (Normal a, t).

Definition bind {A B} (m : T A) (k : A -> T B) : T B :=
  fun t =>
    match m t with
    | (Normal a, t') => k a t'
    | (Throw e, t') => (Throw e, t')
    end.

Definition try_catch {A} (m : T A) (h : error -> T A) : T A :=
  fun t =>
    match m t with
    | (Normal a, t') => (Normal a, t')
    | (Throw e, t') => h e t'
    end.

Definition lift {A} (c : completion A) : T A := fun t => (c, t).

Definition emit (o : out) : T unit := fun t => (Normal tt, (t ++ [o])%list).

Definition console_log (args : list arg) : T unit := emit (Log args).

Definition console_error (args : list arg) : T unit := emit (Err args).

Definition is_http (o : out) : bool :=
  match o with HttpPost _ _ _ => true | _ => false end.

Definition http_posts (t : list out) : list out := List.filter is_http t.

Section WithEnv.

Variable E : env.

(** [await axios.post(url, body, { headers })] *)
Definition axios_post (url : string) (body : payload) (hdrs : req_headers)
  : T response :=
  fun t =>
    (axios_settle (net E (length (http_posts t)) url body hdrs),
     (t ++ [HttpPost url body hdrs])%list).

(** [a && b], [b] being evaluated only when [a] is truthy. *)
Definition js_and (a : value) (b : completion value) : completion value :=
  if truthy a then b else Normal a.

(** [s.endsWith('/')] *)
Fixpoint ends_with_slash (s : string) : bool :=
  match s with
  | EmptyString => false
  | String c EmptyString => Ascii.eqb c "/"
  | String _ s' => ends_with_slash s'
  end.

(** [s.slice(0, -1)] *)
Fixpoint slice_0_minus_1 (s : string) : string :=
  match s with
  | EmptyString => EmptyString
  | String _ EmptyString => EmptyString
  | String c s' => String c (slice_0_minus_1 s')
  end.

Definition nl : string := String (ascii_of_nat 10) EmptyString.

(** [testGoogleTranslationAPI] (api.js, lines 80-123) *)
Definition testGoogleTranslationAPI : T bool :=
  bind (console_log [Str "Testing Google Translation API..."]) (fun _ =>
  if env_falsy (GOOGLE_TRANSLATION_API_KEY E) then
    bind (console_error
            [Str "❌ Google Translation API key is missing. Please add it to your .env file."])
      (fun _ => ret false)
  else
    try_catch
      (bind (console_log [Str "   Attempting language detection..."]) (fun _ =>
       bind (axios_post (detectUrl E) (DetectBody (VStr "Hello world")) [])
         (fun detectResponse =>
       bind (lift (js_and (Js.data detectResponse)
                     (get_field (Js.data detectResponse) "data"))) (fun ok1 =>
       let unexpected :=
         bind (console_error
                 [Str "❌ Google Translation API returned unexpected response format."])
           (fun _ => ret false) in
       if truthy ok1 then
         bind (console_log [Str "✅ Google Translation API (Detect) is working!"])
           (fun _ =>
         bind (lift (detected_language detectResponse)) (fun language =>
         bind (console_log [Str "   Detected language:"; Val language]) (fun _ =>
         bind (console_log [Str "   Full response:";
                            Json (Js.data detectResponse)]) (fun _ =>
         bind (console_log [Str "   Attempting translation..."]) (fun _ =>
         bind (axios_post (translateUrl E)
                 (TranslateBody (VStr "Hello world") (VStr "en") (VStr "es") "text")
                 [])
           (fun translateResponse =>
         bind (lift (js_and (Js.data translateResponse)
                       (get_field (Js.data translateResponse) "data")))
           (fun ok2 =>
         if truthy ok2 then
           bind (console_log
                   [Str "✅ Google Translation API (Translate) is working!"])
             (fun _ =>
           bind (lift (translated_text translateResponse)) (fun translation =>
           bind (console_log [Str "   Translation:"; Val translation]) (fun _ =>
           bind (console_log [Str "   Full response:";
                              Json (Js.data translateResponse)]) (fun _ =>
           ret true))))
         else unexpected)))))))
       else unexpected))))
      (fun error =>
         bind (emit (LogApiError error "Google Translation API")) (fun _ =>
         ret false))).

(** [baseEndpoint]: the endpoint without one trailing slash. *)
Definition baseEndpoint : string :=
  if ends_with_slash (AZURE_AI_ENDPOINT E)
  then slice_0_minus_1 (AZURE_AI_ENDPOINT E)
  else AZURE_AI_ENDPOINT E.

Definition url : string :=
  baseEndpoint
  ++ "/openai/deployments/gpt-4o-mini/chat/completions?api-version=2024-12-01-preview".

Definition requestBody : payload :=
  ChatBody
    ("You are a helpful assistant. Respond with a single word: "
       ++ dquote ++ "Success" ++ dquote ++ ".")
    "Test the API connection." 10 0.7 None.

(** [response.data && response.data.choices &&
     response.data.choices[0].message] *)
Definition has_message (r : response) : completion value :=
  js_and (Js.data r)
    (match get_field (Js.data r) "choices" with
     | Normal choices =>
         js_and choices
           (match get_index0 choices with
            | Normal c0 => get_field c0 "message"
            | Throw t => Throw t
            end)
     | Throw t => Throw t
     end).

(** [testAzureOpenAIAPI] (api.js, lines 126-192) *)
Definition testAzureOpenAIAPI : T bool :=
  bind (console_log [Str (nl ++ "Testing Azure OpenAI API...")]) (fun _ =>
  if env_falsy (AZURE_AI_API_KEY E) then
    bind (console_error
            [Str "❌ Azure OpenAI API key is missing. Please add it to your .env file."])
      (fun _ => ret false)
  else
    try_catch
      (bind (console_log [Str "   Attempting to call Azure OpenAI API..."]) (fun _ =>
       bind (console_log [Str ("   Endpoint: " ++ AZURE_AI_ENDPOINT E)]) (fun _ =>
       bind (console_log [Str "   Model: gpt-4o-mini"]) (fun _ =>
       bind (console_log [Str ("   Full URL: " ++ url)]) (fun _ =>
       bind (console_log [Str "   Request body:"; JsonBody requestBody]) (fun _ =>
       bind (axios_post url requestBody (chatHeaders E)) (fun response =>
       bind (console_log [Str "   Response status:"; Num (status response)])
         (fun _ =>
       bind (console_log [Str "   Response headers:";
                          JsonHeaders (Js.headers response)]) (fun _ =>
       bind (lift (has_message response)) (fun ok =>
       if truthy ok then
         bind (console_log [Str "✅ Azure OpenAI API is working!"]) (fun _ =>
         bind (lift (chat_content response)) (fun content =>
         bind (console_log [Str "   Response:"; Val content]) (fun _ =>
         bind (console_log [Str "   Full response:"; Json (Js.data response)])
           (fun _ =>
         ret true))))
       else
         bind (console_error
                 [Str "❌ Azure OpenAI API returned unexpected response format:"])
           (fun _ =>
         bind (console_error [Json (Js.data response)]) (fun _ =>
         ret false))))))))))))
      (fun error =>
         bind (emit (LogApiError error "Azure OpenAI API")) (fun _ =>
         ret false))).

Definition tips : list out :=
  [Log [Str (nl ++ "🔧 Troubleshooting Tips:")];
   Log [Str "1. Check that your .env file exists and contains the correct API keys"];
   Log [Str "2. Verify that your API keys are active and have not expired"];
   Log [Str "3. Ensure you have sufficient quota/credits on your API accounts"];
   Log [Str "4. Check if the API endpoints are correct for your region"];
   Log [Str ("5. For Azure OpenAI, verify that the model " ++ dquote
               ++ "gpt-4o-mini" ++ dquote ++ " is deployed in your resource")];
   Log [Str "6. Check if your IP address is allowed in the API service's network settings"]].

Definition verdict (b : bool) : string :=
  if b then "✅ Working" else "❌ Failed".

(** [runTests] (api.js, lines 195-227); the result pairs what the two
    tests returned. *)
Definition runTests : T (bool * bool) :=
  bind (console_log [Str ("Starting API tests..." ++ nl)]) (fun _ =>
  bind (try_catch testGoogleTranslationAPI
          (fun error =>
             bind (console_error
                     [Str "Unexpected error during Google API test:";
                      ErrVal error])
               (fun _ => ret false)))
    (fun googleResult =>
  bind (try_catch testAzureOpenAIAPI
          (fun error =>
             bind (console_error
                     [Str "Unexpected error during Azure API test:";
                      ErrVal error])
               (fun _ => ret false)))
    (fun azureResult =>
  bind (console_log [Str (nl ++ "=== Test Results Summary ===")]) (fun _ =>
  bind (console_log [Str "Google Translation API:"; Str (verdict googleResult)])
    (fun _ =>
  bind (console_log [Str "Azure OpenAI API:"; Str (verdict azureResult)])
    (fun _ =>
  bind (if negb googleResult || negb azureResult
        then (fun t => (Normal tt, (t ++ tips)%list))
        else ret tt) (fun _ =>
  ret (googleResult, azureResult)))))))).

End WithEnv.

End ApiTest.

(* ================================================================== *)
(** ** Scenarios used by the statements below *)
(* ================================================================== *)

Definition fresh : world := mkWorld Cache.empty [].

(** An environment with no API keys whose network answers the [n]-th
    POST with [script n]. *)
Definition scripted (script : nat -> reply) : env :=
  mkEnv (fun n _ _ _ => script n) (fun _ => 0) None None None.

Definition chat_ok (content : string) : response :=
  mkResponse 200 ∅
    (VObj [("choices",
            VArr [VObj [("message", VObj [("content", VStr content)])]])]).

(** 429 with [retry-after: 3] and no body. *)
Definition throttled_retry_after_3 : response :=
  mkResponse 429 {["retry-after" := "3"]} VUndefined.

(** 429 whose body has an [error] object without a [message]. *)
Definition throttled_no_message : response :=
  mkResponse 429 ∅ (VObj [("error", VObj [("code", VStr "429")])]).

(** 429 whose body carries the quota message. *)
Definition throttled_quota : response :=
  mkResponse 429 ∅
    (VObj [("error",
            VObj [("message", VStr "Quota exceeded for this subscription.")])]).

Definition a_chat_body : payload := ChatBody "system" "user" 150 0.7 None.

(** The detection provider's answer "the text is Spanish". *)
Definition detection_es : response :=
  mkResponse 200 ∅
    (VObj [("data",
            VObj [("detections",
                   VArr [VArr [VObj [("language", VStr "es")]]])])]).

(** The request body [{text: 'Hola', targetLanguage: 'es'}]. *)
Definition hola_es : value :=
  VObj [("text", VStr "Hola"); ("targetLanguage", VStr "es")].

(** The body is there (an object or an array, as the JSON body parser
    leaves it) and has no property [k]. *)
Definition lacks (b : value) (k : string) : Prop :=
  get_field b k = Normal VUndefined.

(** The POSTs of a [/translate] request: none, the detection alone, or the
    detection followed by the translation. *)
Definition detection_before_translation (E : env) (t : list effect) : Prop :=
  posts t = [] \/
  (exists q, posts t = [Post (detectUrl E) (DetectBody q) []]) \/
  (exists q src tgt,
     posts t = [Post (detectUrl E) (DetectBody q) [];
                Post (translateUrl E) (TranslateBody q src tgt "text") []]).

(** The status event a route emits when it fails. *)
Definition failed_event (r : route) : effect :=
  match r with
  | Translate => Emit "translate" "Translation failed."
  | Summarize => Emit "summarize" "Summarization failed."
  | AnalyzeSymptoms => Emit "symptoms" "Analysis failed."
  end.

Definition is_emit (e : effect) : bool :=
  match e with Emit _ _ => true | _ => false end.

(** The status events of a trace. *)
Definition emitted (t : list effect) : list effect := List.filter is_emit t.

(** What the quota store knows about client [ip] when all the requests
    under consideration arrive in the minute that starts at [t0]: either
    the client has no window open at [t0] ([n = 0]), or it has used [n]
    hits of a window that stays open for the whole minute. *)
Definition window_state (l : RateLimit.store) (ip : string) (t0 n : Z) : Prop :=
  (n = 0 /\ forall h reset, l !! ip = Some (h, reset) -> reset <= t0) \/
  (0 < n /\ exists reset,
      l !! ip = Some (n, reset) /\ t0 + RateLimit.windowMs <= reset).

(** The request comes from [ip] within the minute that starts at [t0]. *)
Definition arrives_within (ip : string) (t0 : Z) (x : env * request) : Prop :=
  req_ip (snd x) = ip /\
  t0 <= Date_now (fst x) 0 < t0 + RateLimit.windowMs.

(** The answer of the quota middleware. *)
Definition too_many_requests : http_response :=
  mkHttp 429
    (VObj [("error", VStr "Too many requests, please try again after a minute.");
           ("details", VStr "API rate limits apply.")]).

(** A client address and sixteen requests of it in one minute: eight to
    [/translate], then eight to [/summarize]. *)
Definition a_client : string := "10.0.0.1".

Definition offline : env := scripted (fun _ => NoResponse "Network Error").

Definition eight_and_eight : list (env * request) :=
  (repeat (offline, mkRequest a_client Translate hola_es) 8
   ++ repeat (offline,
              mkRequest a_client Summarize (VObj [("text", VStr "abc")])) 8)%list.

(** The world after one more POST. *)
Definition posted (w : world) (url : string) (b : payload) (h : req_headers)
  : world :=
  mkWorld (w_cache w) (w_trace w ++ [Post url b h]).

(** The body's [error.message] is a string that contains
    ['Quota exceeded']. *)
Definition indicates_quota_exhaustion (d : value) : Prop :=
  exists e m,
    get_field d "error" = Normal e /\
    get_field e "message" = Normal (VStr m) /\
    includes m "Quota exceeded" = true.

(** The error is an HTTP 429 answer. *)
Definition is_429 (e : error) : bool :=
  match error_response e with
  | Some r => status r =? 429
  | None => false
  end.

Definition quota_error : error :=
  JsError "API quota exhausted. Please check your subscription.".

(** What the handler of the request's route does on the cache [c]. *)
Definition served (E : env) (rq : request) (c : Cache.store) : outcome :=
  mkOutcome
    (fst (handler_of E (req_route rq) (req_body rq) (mkWorld c [])))
    (w_trace (snd (handler_of E (req_route rq) (req_body rq) (mkWorld c [])))).

(** The requests of client [ip] among [reqs]. *)
Definition from_client (ip : string) (reqs : list (env * request))
  : list (env * request) :=
  List.filter (fun x => String.eqb (req_ip (snd x)) ip) reqs.

(** The delays of the timers armed in a trace, in order. *)
Fixpoint timers (t : list effect) : list number :=
  match t with
  | [] => []
  | SetTimeout d :: rest => d :: timers rest
  | _ :: rest => timers rest
  end.

(** The effects of a call of [retryRequest] that waits for [delays], one
    after the other, with [retries] attempts left at first: for each wait
    the POST, the console line and the timer, and then the last POST. *)
Fixpoint attempts (url : string) (body : payload) (hdrs : req_headers)
    (retries : nat) (delays : list number) : list effect :=
  match delays with
  | [] => [Post url body hdrs]
  | delay :: rest =>
      Post url body hdrs
      :: ConsoleLog (ndiv delay (of_Z 1000)) retries
      :: SetTimeout delay
      :: attempts url body hdrs (Nat.pred retries) rest
  end.

(** The effects [retryRequest] performs by itself: POSTs, console lines
    and timers. *)
Definition is_retry_effect (e : effect) : bool :=
  match e with
  | Post _ _ _ | SetTimeout _ | ConsoleLog _ _ => true
  | _ => false
  end.

(** The cache keys of the three handlers, from the strings the texts of
    the request convert to. *)
Definition translate_key (text target : string) : string :=
  "translate:" ++ text ++ ":" ++ target.

Definition summarize_key (text : string) : string :=
  "summarize:" ++ text.

Definition symptoms_key (symptoms : string) : string :=
  "symptoms:" ++ symptoms.

(** The keys under which a trace reads or writes the cache. *)
Fixpoint cache_keys (t : list effect) : list string :=
  match t with
  | [] => []
  | CacheGet k :: rest => k :: cache_keys rest
  | CacheSet k _ :: rest => k :: cache_keys rest
  | _ :: rest => cache_keys rest
  end.

(** The network's answer to the last POST of a trace. *)
Definition last_reply (E : env) (url : string) (b : payload) (h : req_headers)
    (t : list effect) : reply :=
  net E (length (posts t) - 1) url b h.

(** [b.k] as the handlers read it out of a body that is there. *)
Definition field (b : value) (k : string) : value :=
  match get_field b k with
  | Normal v => v
  | Throw _ => VUndefined
  end.

(** The status event a route emits first, and the fields it requires. *)
Definition started_event (r : route) : effect :=
  match r with
  | Translate => Emit "translate" "Translating..."
  | Summarize => Emit "summarize" "Summarizing..."
  | AnalyzeSymptoms => Emit "symptoms" "Analyzing symptoms..."
  end.

Definition required_fields (r : route) : list string :=
  match r with
  | Translate => ["text"; "targetLanguage"]
  | Summarize => ["text"]
  | AnalyzeSymptoms => ["symptoms"]
  end.

(** Every required field of the body is truthy. *)
Definition has_required (r : route) (b : value) : bool :=
  forallb (fun k => truthy (field b k)) (required_fields r).

(** The cache key a route derives from a request body; there is none
    when a text of the request cannot be converted to a string. *)
Definition route_key (r : route) (b : value) : completion string :=
  match r with
  | Translate =>
      match to_string (field b "text") with
      | Normal text =>
          match to_string (field b "targetLanguage") with
          | Normal target => Normal (translate_key text target)
          | Throw e => Throw e
          end
      | Throw e => Throw e
      end
  | Summarize =>
      match to_string (field b "text") with
      | Normal text => Normal (summarize_key text)
      | Throw e => Throw e
      end
  | AnalyzeSymptoms =>
      match to_string (field b "symptoms") with
      | Normal symptoms => Normal (symptoms_key symptoms)
      | Throw e => Throw e
      end
  end.

(** The body of the chat request of [/summarize] and of
    [/analyze-symptoms]. *)
Definition summarize_body (text : string) : payload :=
  ChatBody summarize_prompt ("Text: " ++ text) 150 0.7 (Some 1.0%Q).

Definition symptoms_body (symptoms : string) : payload :=
  ChatBody symptoms_prompt ("Symptoms: " ++ symptoms) 150 0.7 None.

(** The translation provider's answer "Hello", and a network that
    answers the detection with Spanish and the translation with it. *)
Definition translation_hello : response :=
  mkResponse 200 ∅
    (VObj [("data",
            VObj [("translations",
                   VArr [VObj [("translatedText", VStr "Hello")]])])]).

Definition detects_then_translates : env :=
  scripted (fun n => match n with
                     | O => Responded detection_es
                     | _ => Responded translation_hello
                     end).

(** A provider whose answers are blank, the body [{symptoms: 'fever'}],
    and the cache left by a first request for it. *)
Definition blank_answers : env := scripted (fun _ => Responded (chat_ok "   ")).

Definition fever : value := VObj [("symptoms", VStr "fever")].

Definition cache_after_blank_answer : Cache.store :=
  w_cache (snd (analyze_symptoms_handler blank_answers fever
                  (mkWorld Cache.empty []))).

(** An environment whose AI-provider key is set to the empty string. *)
Definition empty_key : env :=
  mkEnv (fun _ _ _ _ => NoResponse "Network Error") (fun _ => 0)
        None (Some "") None.

Definition a_note : value := VObj [("text", VStr "a note")].

(** Decimal digits, and strings made of them. *)
Definition is_digit (c : ascii) : bool :=
  match digit_of 10 c with Some _ => true | None => false end.

Fixpoint all_digits_in (s : string) : bool :=
  match s with
  | EmptyString => true
  | String c s' => is_digit c && all_digits_in s'
  end.

(** Unfolds the monad and splits on whatever the code branches on,
    innermost test first. *)
Ltac unfold_monad :=
  cbv beta iota zeta delta
    [bind try_catch lift ret throw io_emit perform cache_get cache_set
     axios_post res_json res_status_json limiter_schedule
     w_trace w_cache fst snd].

Ltac split_scrutinee :=
  match goal with
  | |- context [match ?x with _ => _ end] =>
      lazymatch x with
      | context [match _ with _ => _ end] => fail
      | _ => destruct x eqn:?
      end
  end.

Ltac run_handler := unfold_monad; repeat (split_scrutinee; unfold_monad).

(* ================================================================== *)
(** ** [retryRequest]: one attempt *)
(* ================================================================== *)

Section RetryFacts.

Variable E : env.
Variables (url : string) (body : payload) (hdrs : req_headers).

Lemma retryRequest_unfold (retries : nat) (d : number) (w : world) :
  retryRequest E url body hdrs retries d w =
  match axios_settle (net E (length (posts (w_trace w))) url body hdrs) with
  | Normal r => (Normal r, posted w url body hdrs)
  | Throw error =>
      match error_response error, retries with
      | Some resp, S n =>
          if status resp =? 429 then
            match quota_exceeded (Js.data resp) with
            | Normal true => (Throw quota_error, posted w url body hdrs)
            | Normal false =>
                let delay := retry_delay (Js.headers resp) d in
                retryRequest E url body hdrs n (nmul d (of_Z 2))
                  (mkWorld (w_cache w)
                     (w_trace w ++ [Post url body hdrs]
                        ++ [ConsoleLog (ndiv delay (of_Z 1000)) retries]
                        ++ [SetTimeout delay]))
            | Throw t => (Throw t, posted w url body hdrs)
            end
          else (Throw error, posted w url body hdrs)
      | _, _ => (Throw error, posted w url body hdrs)
      end
  end.
Proof.
  destruct retries as [|n]; cbn [retryRequest];
    unfold try_catch, axios_post, posted;
    destruct (axios_settle _) as [r|err]; try reflexivity.
  - destruct (error_response err); reflexivity.
  - destruct (error_response err) as [resp|]; [|reflexivity].
    destruct (status resp =? 429); [|reflexivity].
    unfold bind, lift, throw, perform; cbn.
    destruct (quota_exceeded (Js.data resp)) as [[|]|t]; try reflexivity.
    cbn [w_cache w_trace]. now rewrite <- !app_assoc.
Qed.

(** A successful answer is returned after a single POST. *)
Lemma retryRequest_resolves retries d w r :
  axios_settle (net E (length (posts (w_trace w))) url body hdrs) = Normal r ->
  retryRequest E url body hdrs retries d w = (Normal r, posted w url body hdrs).
Proof. intros H. now rewrite retryRequest_unfold, H. Qed.

(** What axios throws for an answer with status 429. *)
Lemma axios_settle_429 resp :
  status resp = 429 ->
  axios_settle (Responded resp) =
  Throw (AxiosError "Request failed with status code 429" (Some resp)).
Proof. intros H. unfold axios_settle. now rewrite H. Qed.

(** A 429 whose quota test is false, with a retry left: the timer is
    armed with [retry_delay] and the request is issued again with one
    retry fewer and twice the delay. *)
Lemma retryRequest_retries n d w resp :
  net E (length (posts (w_trace w))) url body hdrs = Responded resp ->
  status resp = 429 ->
  quota_exceeded (Js.data resp) = Normal false ->
  retryRequest E url body hdrs (S n) d w =
  retryRequest E url body hdrs n (nmul d (of_Z 2))
    (mkWorld (w_cache w)
       (w_trace w ++ [Post url body hdrs]
          ++ [ConsoleLog (ndiv (retry_delay (Js.headers resp) d) (of_Z 1000)) (S n)]
          ++ [SetTimeout (retry_delay (Js.headers resp) d)])).
Proof.
  intros Hnet Hs Hq.
  rewrite retryRequest_unfold, Hnet, (axios_settle_429 _ Hs); cbn.
  now rewrite Hs, Hq.
Qed.

(** A 429 whose quota test throws: the exception escapes the [catch]
    block, and nothing is retried. *)
Lemma retryRequest_quota_test_throws n d w resp t :
  net E (length (posts (w_trace w))) url body hdrs = Responded resp ->
  status resp = 429 ->
  quota_exceeded (Js.data resp) = Throw t ->
  retryRequest E url body hdrs (S n) d w = (Throw t, posted w url body hdrs).
Proof.
  intros Hnet Hs Hq.
  rewrite retryRequest_unfold, Hnet, (axios_settle_429 _ Hs); cbn.
  now rewrite Hs, Hq.
Qed.

End RetryFacts.

(** The header, when it is there and not empty, is read as a number of
    seconds. *)
Lemma retry_delay_header (h : gmap string string) (s : string) (d : number) :
  h !! "retry-after" = Some s -> s <> "" ->
  retry_delay h d = nmul (StringToNumber s) (of_Z 1000).
Proof.
  intros H Hs. unfold retry_delay. rewrite H.
  destruct (String.eqb_spec s ""); [contradiction|reflexivity].
Qed.

(** Without the header the delay is the current delay. *)
Lemma retry_delay_default (h : gmap string string) (q : Q) :
  h !! "retry-after" = None ->
  retry_delay h (Fin q) = Fin (Qred q).
Proof.
  intros H. unfold retry_delay. rewrite H. unfold ndiv, nmul, of_Z.
  change (inject_Z 1000 ?= 0)%Q with Gt. f_equal.
  apply Qred_complete. rewrite Qred_correct. field.
Qed.

Lemma posts_app (t u : list effect) : posts (t ++ u) = (posts t ++ posts u)%list.
Proof. unfold posts. apply List.filter_app. Qed.

Lemma quota_exceeded_of_message (d : value) :
  indicates_quota_exhaustion d -> quota_exceeded d = Normal true.
Proof.
  intros (e & m & He & Hm & Hi).
  destruct d; cbn in He; try discriminate;
    injection He as <-; try (cbn in Hm; discriminate).
  unfold quota_exceeded, get_field.
  destruct (lookup_field "error" fields); cbn in Hm; try discriminate.
  injection Hm as Hm. cbn. now rewrite Hm; cbn; rewrite Hi.
Qed.

(* ================================================================== *)
(** ** Claims about [retryRequest] *)
(* ================================================================== *)

(** The retry step of C1 where the quota test evaluates: a 429 whose body
    has no [error], or whose [error.message] is a string without 'Quota
    exceeded', with a retry left.  The timer gets the header's seconds
    when the header is there and the current delay otherwise, and the next
    attempt runs with one retry fewer and twice the delay. *)
Lemma retryRequest_waits_then_reissues
    E url body hdrs (n : nat) (q : Q) (w : world) (resp : response) :
  net E (length (posts (w_trace w))) url body hdrs = Responded resp ->
  status resp = 429 ->
  quota_exceeded (Js.data resp) = Normal false ->
  exists delay,
    retryRequest E url body hdrs (S n) (Fin q) w =
    retryRequest E url body hdrs n (Fin (Qred (q * 2)))
      (mkWorld (w_cache w)
         (w_trace w ++ [Post url body hdrs]
            ++ [ConsoleLog (ndiv delay (of_Z 1000)) (S n)]
            ++ [SetTimeout delay])) /\
    match Js.headers resp !! "retry-after" with
    | Some s => s <> "" -> delay = nmul (StringToNumber s) (of_Z 1000)
    | None => delay = Fin (Qred q)
    end.
Proof.
  intros Hnet Hs Hq. exists (retry_delay (Js.headers resp) (Fin q)). split.
  - now rewrite (retryRequest_retries _ _ _ _ _ _ _ _ Hnet Hs Hq).
  - destruct (Js.headers resp !! "retry-after") as [s|] eqn:Hh.
    + intros Hne. now apply retry_delay_header.
    + now apply retry_delay_default.
Qed.

(** The scenario of C1: 429 with [retry-after: 3] (and a body on which the
    quota test is false), then a 2xx answer.  The call resolves with that
    answer after exactly two POSTs, and between them a timer of 3000 ms,
    the three seconds of the header. *)
Lemma retry_after_3_then_200
    E url body hdrs (c : Cache.store) (r1 r2 : response) :
  net E 0 url body hdrs = Responded r1 ->
  status r1 = 429 ->
  Js.headers r1 !! "retry-after" = Some "3" ->
  quota_exceeded (Js.data r1) = Normal false ->
  net E 1 url body hdrs = Responded r2 ->
  200 <= status r2 < 300 ->
  retryRequest_default E url body hdrs (mkWorld c [])
  = (Normal r2,
     mkWorld c [Post url body hdrs;
                ConsoleLog (of_Z 3) 5;
                SetTimeout (of_Z 3000);
                Post url body hdrs]).
Proof.
  intros H1 Hs Hh Hq H2 Hok. unfold retryRequest_default.
  rewrite (retryRequest_retries E url body hdrs 4 _ (mkWorld c []) r1); auto.
  rewrite (retry_delay_header _ "3" _ Hh) by discriminate.
  rewrite retryRequest_unfold.
  cbn [w_trace w_cache app posts List.filter is_post length].
  rewrite H2. unfold axios_settle.
  replace ((200 <=? status r2) && (status r2 <? 300)) with true
    by (symmetry; apply andb_true_iff; split;
        [apply Z.leb_le | apply Z.ltb_lt]; lia).
  reflexivity.
Qed.

Example retry_after_3_then_200_example :
  retryRequest_default
    (scripted (fun n => match n with
                        | O => Responded throttled_retry_after_3
                        | _ => Responded (chat_ok "done")
                        end))
    "u" a_chat_body [] fresh
  = (Normal (chat_ok "done"),
     mkWorld Cache.empty
       [Post "u" a_chat_body [];
        ConsoleLog (of_Z 3) 5;
        SetTimeout (of_Z 3000);
        Post "u" a_chat_body []]).
Proof.
  apply (retry_after_3_then_200 _ _ _ _ _ throttled_retry_after_3);
    try reflexivity.
  cbn; lia.
Qed.

(** C1, at the input on which the code departs from the claim.  The
    provider answers 429 with the body [{error: {code: '429'}}], which
    holds no quota message, and five retries are left.  The quota test
    reads [.includes] of the missing [message] and throws a TypeError out
    of the [catch] block: one POST was issued, no timer was armed, and the
    request is not issued again although the next answer would be 200. *)
Theorem retryRequest_429_error_without_message :
  retryRequest_default
    (scripted (fun n => match n with
                        | O => Responded throttled_no_message
                        | _ => Responded (chat_ok "done")
                        end))
    "u" a_chat_body [] fresh
  = (Throw (TypeError "Cannot read properties of undefined (reading 'includes')"),
     mkWorld Cache.empty [Post "u" a_chat_body []]).
Proof. vm_compute. reflexivity. Qed.

(** C2 as stated fails when no retry is left: five plain 429 answers
    followed by a 429 with the quota message make the default call throw
    the axios error of the last answer, not the 'quota exhausted' error. *)
Lemma quota_429_after_budget_is_not_quota_error :
  let E := scripted (fun n => if (n <? 5)%nat
                              then Responded (mkResponse 429 ∅ VUndefined)
                              else Responded throttled_quota) in
  indicates_quota_exhaustion (Js.data throttled_quota) /\
  fst (retryRequest_default E "u" a_chat_body [] fresh)
  = Throw (AxiosError "Request failed with status code 429" (Some throttled_quota)) /\
  fst (retryRequest_default E "u" a_chat_body [] fresh) <> Throw quota_error.
Proof.
  cbv zeta. split; [|split].
  - exists (VObj [("message", VStr "Quota exceeded for this subscription.")]),
      "Quota exceeded for this subscription.".
    repeat split; reflexivity.
  - vm_compute. reflexivity.
  - vm_compute. discriminate.
Qed.

(** C2, amended: while a retry is left, a 429 whose body's error message
    contains 'Quota exceeded' makes the call throw the terminal 'quota
    exhausted' error at once: the POST that got the answer is the last
    effect, so no timer is armed and no further attempt is made. *)
Theorem retryRequest_quota_exhausted
    E url body hdrs (retries : nat) (d : number) (w : world) (resp : response) :
  (0 < retries)%nat ->
  net E (length (posts (w_trace w))) url body hdrs = Responded resp ->
  status resp = 429 ->
  indicates_quota_exhaustion (Js.data resp) ->
  retryRequest E url body hdrs retries d w
  = (Throw quota_error, posted w url body hdrs).
Proof.
  intros Hr Hnet Hs Hq. destruct retries as [|n]; [lia|].
  rewrite retryRequest_unfold, Hnet, (axios_settle_429 _ Hs); cbn.
  now rewrite Hs, (quota_exceeded_of_message _ Hq).
Qed.

Lemma retryRequest_quota_exhausted_witness :
  (0 < 5)%nat /\
  indicates_quota_exhaustion (Js.data throttled_quota) /\
  retryRequest (scripted (fun _ => Responded throttled_quota))
    "u" a_chat_body [] 5 (of_Z 2000) fresh
  = (Throw quota_error, posted fresh "u" a_chat_body []).
Proof.
  assert (Hq : indicates_quota_exhaustion (Js.data throttled_quota)).
  { exists (VObj [("message", VStr "Quota exceeded for this subscription.")]),
      "Quota exceeded for this subscription.".
    repeat split; reflexivity. }
  split; [lia|]. split; [exact Hq|].
  apply (retryRequest_quota_exhausted
           (scripted (fun _ => Responded throttled_quota))
           "u" a_chat_body [] 5 (of_Z 2000) fresh throttled_quota);
    [lia | reflexivity | reflexivity | exact Hq].
Defined.



(** With the budget used up by 429 answers, the error that reaches the
    caller is the one of the last attempt, after [retries + 1] POSTs. *)
Lemma retryRequest_exhausts_budget E url body hdrs :
  forall (retries : nat) (r : nat -> response) (d : number) (w : world),
    (forall k, (k <= retries)%nat ->
       net E (length (posts (w_trace w)) + k) url body hdrs = Responded (r k) /\
       status (r k) = 429 /\
       quota_exceeded (Js.data (r k)) = Normal false) ->
    exists w',
      retryRequest E url body hdrs retries d w
      = (Throw (AxiosError "Request failed with status code 429"
                  (Some (r retries))), w') /\
      length (posts (w_trace w')) = (length (posts (w_trace w)) + retries + 1)%nat.
Proof.
  induction retries as [|n IH]; intros r d w H.
  - destruct (H 0%nat (le_n _)) as (Hnet & Hs & _).
    rewrite Nat.add_0_r in Hnet.
    exists (posted w url body hdrs). split.
    + rewrite retryRequest_unfold, Hnet, (axios_settle_429 _ Hs). reflexivity.
    + cbn. rewrite posts_app, length_app. cbn. lia.
  - destruct (H 0%nat (Nat.le_0_l _)) as (Hnet & Hs & Hq).
    rewrite Nat.add_0_r in Hnet.
    rewrite (retryRequest_retries _ _ _ _ _ _ _ _ Hnet Hs Hq).
    set (w1 := mkWorld _ _).
    assert (Hlen : length (posts (w_trace w1)) = S (length (posts (w_trace w)))).
    { unfold w1. cbn [w_trace]. rewrite posts_app, length_app. cbn. lia. }
    destruct (IH (fun k => r (S k)) (nmul d (of_Z 2)) w1) as (w' & Hrun & Hposts).
    { intros k Hk. rewrite Hlen.
      replace (S (length (posts (w_trace w))) + k)%nat
        with (length (posts (w_trace w)) + S k)%nat by lia.
      apply H. lia. }
    exists w'. split; [exact Hrun|]. rewrite Hposts, Hlen. lia.
Qed.

(* ================================================================== *)
(** ** The cache *)
(* ================================================================== *)


(** [set] leaves the other keys alone. *)
Lemma cache_get_other (c : Cache.store) key key' v (t t' : Z) :
  key <> key' ->
  Cache.get t' key' (Cache.set t key v c) = Cache.get t' key' c.
Proof.
  intros H. unfold Cache.get, Cache.set. now rewrite lookup_insert_ne.
Qed.

(** C4: a [get] at the instant of the [set] returns the stored value, and
    a [get] strictly more than 3600 seconds after the [set] is a miss. *)
Theorem cache_set_get (c : Cache.store) (key : string) (v : value) (t t' : Z) :
  t + 3600 * 1000 < t' ->
  Cache.get t key (Cache.set t key v c) = Some v /\
  Cache.get t' key (Cache.set t key v c) = None.
Proof.
  intros H. unfold Cache.get, Cache.set. rewrite lookup_insert_eq.
  unfold Cache.stdTTL. split.
  - destruct (Z.ltb_spec (t + 3600 * 1000) t); [lia|reflexivity].
  - destruct (Z.ltb_spec (t + 3600 * 1000) t'); [reflexivity|lia].
Qed.

Lemma cache_set_get_witness :
  10 + 3600 * 1000 < 3600011 /\
  Cache.get 10 "summarize:abc" (Cache.set 10 "summarize:abc" (VStr "s") Cache.empty)
  = Some (VStr "s") /\
  Cache.get 3600011 "summarize:abc"
    (Cache.set 10 "summarize:abc" (VStr "s") Cache.empty)
  = None.
Proof.
  split; [lia|].
  apply (cache_set_get Cache.empty "summarize:abc" (VStr "s") 10 3600011). lia.
Defined.

(* ================================================================== *)
(** ** The handlers *)
(* ================================================================== *)

(** Once one property could be read, the value is neither [undefined] nor
    [null], and destructuring reads properties as [.] does. *)
Lemma destructure_get_field (b : value) (k k' src : string) (v : value) :
  get_field b k = Normal v -> destructure b k' src = get_field b k'.
Proof. destruct b; cbn; intros H; try discriminate; reflexivity. Qed.

Lemma lacks_other_field (b : value) (k k' : string) :
  lacks b k -> exists v, get_field b k' = Normal v.
Proof.
  unfold lacks. destruct b; cbn; intros H; try discriminate; eauto.
Qed.

(** C5: a body without a required field is answered with 400 by each of
    the three handlers, and the world is returned as it was: no status
    event, no cache read, no POST.  In particular [/summarize] with the
    empty body [{}] answers 400 [{error: 'Text is required.'}]. *)
Theorem missing_field_is_rejected (E : env) (b : value) (w : world) :
  (lacks b "text" \/ lacks b "targetLanguage" ->
   translate_handler E b w
   = (Normal (mkHttp 400
                (VObj [("error", VStr "Text and target language are required.")])),
      w)) /\
  (lacks b "text" ->
   summarize_handler E b w
   = (Normal (mkHttp 400 (VObj [("error", VStr "Text is required.")])), w)) /\
  (lacks b "symptoms" ->
   analyze_symptoms_handler E b w
   = (Normal (mkHttp 400 (VObj [("error", VStr "Symptoms are required.")])), w)) /\
  summarize_handler E (VObj []) w
  = (Normal (mkHttp 400 (VObj [("error", VStr "Text is required.")])), w).
Proof.
  repeat split.
  - intros [H|H].
    + destruct (lacks_other_field b "text" "targetLanguage" H) as [v Hv].
      unfold translate_handler, bind, lift.
      rewrite !(destructure_get_field b "text" _ _ _ H), H, Hv. reflexivity.
    + destruct (lacks_other_field b "targetLanguage" "text" H) as [v Hv].
      unfold translate_handler, bind, lift.
      rewrite !(destructure_get_field b "text" _ _ _ Hv), H, Hv. cbn.
      now rewrite orb_true_r.
  - intros H. unfold summarize_handler, bind, lift.
    now rewrite (destructure_get_field b "text" _ _ _ H), H.
  - intros H. unfold analyze_symptoms_handler, bind, lift.
    now rewrite (destructure_get_field b "symptoms" _ _ _ H), H.
Qed.

Lemma missing_field_is_rejected_witness :
  let E := scripted (fun _ => NoResponse "unused") in
  (lacks (VObj []) "text" \/ lacks (VObj []) "targetLanguage") /\
  lacks (VObj []) "text" /\
  lacks (VObj []) "symptoms" /\
  translate_handler E (VObj []) fresh
  = (Normal (mkHttp 400
               (VObj [("error", VStr "Text and target language are required.")])),
     fresh) /\
  summarize_handler E (VObj []) fresh
  = (Normal (mkHttp 400 (VObj [("error", VStr "Text is required.")])), fresh) /\
  analyze_symptoms_handler E (VObj []) fresh
  = (Normal (mkHttp 400 (VObj [("error", VStr "Symptoms are required.")])), fresh).
Proof.
  cbv zeta.
  destruct (missing_field_is_rejected
              (scripted (fun _ => NoResponse "unused")) (VObj []) fresh)
    as (Ht & Hs & Ha & _).
  split; [left; reflexivity|]. split; [reflexivity|]. split; [reflexivity|].
  split; [apply Ht; left; reflexivity|].
  split; [apply Hs; reflexivity | apply Ha; reflexivity].
Defined.

Lemma translate_posts_shape (E : env) (b : value) (c : Cache.store) :
  detection_before_translation E
    (w_trace (snd (translate_handler E b (mkWorld c [])))).
Proof.
  unfold translate_handler, detection_before_translation.
  run_handler;
    try (left; reflexivity);
    try (right; left; eexists; reflexivity);
    try (right; right; do 3 eexists; reflexivity).
Qed.

(** C6 as stated fails on the response body: for [{text: 'Hola',
    targetLanguage: 'es'}] with detection answering 'es' the handler sends
    a third field, [message]. *)
Lemma translate_hola_es_body_has_message :
  let sent_body :=
    match fst (translate_handler (scripted (fun _ => Responded detection_es))
                 hola_es fresh) with
    | Normal r => body r
    | Throw _ => VUndefined
    end in
  sent_body = VObj [("detectedLanguage", VStr "es");
                    ("translatedText", VStr "Hola");
                    ("message", VStr "Same language detected.")] /\
  sent_body <> VObj [("detectedLanguage", VStr "es");
                     ("translatedText", VStr "Hola")].
Proof. cbv zeta. split; [vm_compute; reflexivity | vm_compute; discriminate]. Qed.

(** C6, amended.  In every run of the [/translate] handler the POSTs are
    none, the detection alone, or the detection followed by the
    translation: detection comes first.  When the request passes
    validation, its text and target convert to strings (the cache key is
    made of them), it misses the cache, and the detected language is
    strictly equal to the target language, the handler answers 200 with
    [{detectedLanguage, translatedText: text, message: 'Same language
    detected.'}] after the detection POST alone: the translation endpoint
    is not called. *)
Theorem translate_detects_first_and_short_circuits
    (E : env) (b : value) (c : Cache.store) :
  detection_before_translation E
    (w_trace (snd (translate_handler E b (mkWorld c [])))) /\
  forall (text target lang : value) (text_str target_str : string)
         (resp : response),
    get_field b "text" = Normal text ->
    get_field b "targetLanguage" = Normal target ->
    truthy text = true ->
    truthy target = true ->
    to_string text = Normal text_str ->
    to_string target = Normal target_str ->
    Cache.get (Date_now E 1)
      ("translate:" ++ text_str ++ ":" ++ target_str) c = None ->
    net E 0 (detectUrl E) (DetectBody text) [] = Responded resp ->
    200 <= status resp < 300 ->
    detected_language resp = Normal lang ->
    strict_eq lang target = true ->
    let key := "translate:" ++ text_str ++ ":" ++ target_str in
    let result := VObj [("detectedLanguage", lang);
                        ("translatedText", text);
                        ("message", VStr "Same language detected.")] in
    translate_handler E b (mkWorld c [])
    = (Normal (mkHttp 200 result),
       mkWorld (Cache.set (Date_now E 3) key result c)
         [Emit "translate" "Translating...";
          CacheGet key;
          Post (detectUrl E) (DetectBody text) [];
          CacheSet key result;
          Emit "translate" "Translation complete."]).
Proof.
  split; [apply translate_posts_shape|].
  intros text target lang text_str target_str resp
    Ht Htg Htt Htgt Hs Hst Hmiss Hnet Hok Hlang Heq.
  cbv zeta. unfold translate_handler. unfold_monad.
  rewrite !(destructure_get_field b "text" _ _ _ Ht), Ht, Htg, Htt, Htgt.
  cbn [negb orb app length]. rewrite Hs, Hst, Hmiss.
  cbn [default truthy posts List.filter is_post length]. rewrite Hnet.
  unfold axios_settle.
  replace ((200 <=? status resp) && (status resp <? 300)) with true
    by (symmetry; apply andb_true_iff; split;
        [apply Z.leb_le | apply Z.ltb_lt]; lia).
  rewrite Hlang, Heq. reflexivity.
Qed.

Lemma translate_detects_first_and_short_circuits_witness :
  let E := scripted (fun _ => Responded detection_es) in
  let result := VObj [("detectedLanguage", VStr "es");
                      ("translatedText", VStr "Hola");
                      ("message", VStr "Same language detected.")] in
  get_field hola_es "text" = Normal (VStr "Hola") /\
  get_field hola_es "targetLanguage" = Normal (VStr "es") /\
  truthy (VStr "Hola") = true /\
  truthy (VStr "es") = true /\
  to_string (VStr "Hola") = Normal "Hola" /\
  to_string (VStr "es") = Normal "es" /\
  Cache.get (Date_now E 1) "translate:Hola:es" Cache.empty = None /\
  net E 0 (detectUrl E) (DetectBody (VStr "Hola")) [] = Responded detection_es /\
  200 <= status detection_es < 300 /\
  detected_language detection_es = Normal (VStr "es") /\
  strict_eq (VStr "es") (VStr "es") = true /\
  translate_handler E hola_es (mkWorld Cache.empty [])
  = (Normal (mkHttp 200 result),
     mkWorld (Cache.set 0 "translate:Hola:es" result Cache.empty)
       [Emit "translate" "Translating...";
        CacheGet "translate:Hola:es";
        Post (detectUrl E) (DetectBody (VStr "Hola")) [];
        CacheSet "translate:Hola:es" result;
        Emit "translate" "Translation complete."]).
Proof.
  cbv zeta.
  assert (Hok : 200 <= status detection_es < 300) by (cbn; lia).
  repeat (split; [first [reflexivity | exact Hok]|]).
  exact (proj2 (translate_detects_first_and_short_circuits
                  (scripted (fun _ => Responded detection_es)) hola_es Cache.empty)
           (VStr "Hola") (VStr "es") (VStr "es") "Hola" "es" detection_es
           eq_refl eq_refl eq_refl eq_refl eq_refl eq_refl eq_refl eq_refl
           Hok eq_refl eq_refl).
Defined.

(** With the AI-provider key unset, [/summarize] answers 500 by itself on
    a cache miss (of a text that converts to a string): the only effects
    are its status events and the cache read, and no POST is made. *)
Lemma summarize_without_api_key (E : env) (b : value) (c : Cache.store)
    (text : value) (text_str : string) :
  env_falsy (env_AZURE_AI_API_KEY E) = true ->
  get_field b "text" = Normal text ->
  truthy text = true ->
  to_string text = Normal text_str ->
  Cache.get (Date_now E 1) ("summarize:" ++ text_str) c = None ->
  summarize_handler E b (mkWorld c [])
  = (Normal (mkHttp 500
       (VObj [("error",
               VStr "API key not found. Set the AZURE_OPENAI_API_KEY environment variable.")])),
     mkWorld c [Emit "summarize" "Summarizing...";
                CacheGet ("summarize:" ++ text_str);
                Emit "summarize" "Summarization failed."]).
Proof.
  intros Hk Ht Htt Hs Hmiss. unfold summarize_handler, AZURE_AI_API_KEY.
  unfold_monad. rewrite (destructure_get_field b "text" _ _ _ Ht), Ht, Htt.
  cbn [negb app length]. rewrite Hs, Hmiss.
  cbn [default truthy]. now rewrite Hk.
Qed.

(** A handler answers 200, 400 or 500, never 429. *)
Lemma handler_codes (E : env) (r : route) (b : value) (w : world)
    (resp : http_response) :
  fst (handler_of E r b w) = Normal resp ->
  code resp = 200 \/ code resp = 400 \/ code resp = 500.
Proof.
  destruct r; cbn [handler_of];
    [unfold translate_handler | unfold summarize_handler
    | unfold analyze_symptoms_handler];
    run_handler; cbn; intros H; try discriminate; injection H as <-;
    cbn; auto.
Qed.

(** C8, at the input on which the code departs from the claim.  The
    server has just started, the AI-provider key is absent, and the
    endpoint the server is pointed at answers 200.  [/analyze-symptoms]
    does not test the key as [/summarize] does: it posts the request with
    the [api-key] header undefined and answers 200 with the analysis, not
    500. *)
Theorem analyze_symptoms_without_api_key :
  let E := scripted (fun _ => Responded (chat_ok " Rest and fluids. ")) in
  env_AZURE_AI_API_KEY E = None /\
  app_post E
    (mkRequest a_client AnalyzeSymptoms (VObj [("symptoms", VStr "fever")]))
    (startup E)
  = (mkOutcome
       (Normal (mkHttp 200 (VObj [("analysis", VStr "Rest and fluids.")])))
       [Emit "symptoms" "Analyzing symptoms...";
        CacheGet "symptoms:fever";
        Post (chatUrl E)
          (ChatBody (symptoms_prompt) "Symptoms: fever" 150 0.7 None)
          [("Content-Type", Some "application/json"); ("api-key", None)];
        CacheSet "symptoms:fever" (VStr "Rest and fluids.");
        Emit "symptoms" "Analysis complete."],
     mkServer {[a_client := (1, 60000)]}
       (Cache.set 0 "symptoms:fever" (VStr "Rest and fluids.") Cache.empty)).
Proof. cbv zeta. split; [reflexivity | vm_compute; reflexivity]. Qed.

(** C9 as stated fails for the 400 and the 429 answers: [/summarize] with
    the empty body answers 400, and a client that has used its fifteen
    requests is answered 429, and in both cases the request performs no
    effect at all, so no status event is emitted. *)
Lemma error_400_and_429_emit_nothing :
  let E := scripted (fun _ => NoResponse "unused") in
  let o400 := fst (app_post E (mkRequest a_client Summarize (VObj [])) (startup E)) in
  let o429 :=
    fst (app_post E (mkRequest a_client Summarize (VObj [("text", VStr "abc")]))
           (mkServer {[a_client := (15, 60000)]} Cache.empty)) in
  sent o400 = Normal (mkHttp 400 (VObj [("error", VStr "Text is required.")])) /\
  effects o400 = [] /\
  sent o429 = Normal (mkHttp 429 RateLimit.message) /\
  effects o429 = [].
Proof. cbv zeta. repeat split; vm_compute; reflexivity. Qed.

Lemma last_snoc_emit (t : list effect) (a m : string) :
  last (t ++ [Emit a m]) = Some (Emit a m).
Proof. apply last_snoc. Qed.

(** C9, amended.  Whenever a route answers 500, the last effect before
    the answer is the status event with the 'failed' message of that
    route's action; an answer 400 or 429 comes with no status event. *)
Theorem failed_event_accompanies_500
    (E : env) (rq : request) (s s' : server) (o : outcome) (r : http_response) :
  app_post E rq s = (o, s') ->
  sent o = Normal r ->
  (code r = 500 -> last (effects o) = Some (failed_event (req_route rq))) /\
  (code r = 400 \/ code r = 429 -> emitted (effects o) = []).
Proof.
  unfold app_post, apiLimiter.
  destruct (RateLimit.increment _ _ _) as [hits l'].
  destruct (RateLimit.max <? hits).
  - intros [= <- <-] [= <-]; cbn. split; [discriminate|reflexivity].
  - destruct rq as [ip [| |] b]; cbn [handler_of req_route req_body];
      [unfold translate_handler | unfold summarize_handler
      | unfold analyze_symptoms_handler];
      run_handler; intros [= <- <-]; cbn [sent effects];
      intros Hs; try discriminate; injection Hs as <-; cbn [code failed_event];
      (split; [intros Hc; try discriminate; try reflexivity;
               try apply last_snoc_emit
              |intros [Hc|Hc]; try discriminate; try reflexivity]).
Qed.

Lemma failed_event_accompanies_500_witness :
  let E := scripted (fun _ => Responded (mkResponse 503 ∅ VNull)) in
  let rq := mkRequest a_client AnalyzeSymptoms (VObj [("symptoms", VStr "fever")]) in
  let o := fst (app_post E rq (startup E)) in
  sent o = Normal (mkHttp 500
                     (VObj [("error", VStr "Symptom analysis failed");
                            ("details", VStr "Request failed with status code 503")])) /\
  last (effects o) = Some (Emit "symptoms" "Analysis failed.").
Proof.
  cbv zeta.
  assert (Hsent :
    sent (fst (app_post (scripted (fun _ => Responded (mkResponse 503 ∅ VNull)))
                 (mkRequest a_client AnalyzeSymptoms (VObj [("symptoms", VStr "fever")]))
                 (startup (scripted (fun _ => Responded (mkResponse 503 ∅ VNull))))))
    = Normal (mkHttp 500
                (VObj [("error", VStr "Symptom analysis failed");
                       ("details", VStr "Request failed with status code 503")])))
    by (vm_compute; reflexivity).
  split; [exact Hsent|].
  exact (proj1 (failed_event_accompanies_500
                  (scripted (fun _ => Responded (mkResponse 503 ∅ VNull)))
                  (mkRequest a_client AnalyzeSymptoms (VObj [("symptoms", VStr "fever")]))
                  _ _ _ _ (surjective_pairing _) Hsent) eq_refl).
Defined.

(* ================================================================== *)
(** ** The request quota *)
(* ================================================================== *)

Lemma increment_within (l : RateLimit.store) ip t0 n now :
  window_state l ip t0 n ->
  t0 <= now < t0 + RateLimit.windowMs ->
  fst (RateLimit.increment now ip l) = n + 1 /\
  window_state (snd (RateLimit.increment now ip l)) ip t0 (n + 1).
Proof.
  intros Hw Hnow. unfold RateLimit.increment.
  destruct Hw as [[-> Hnone] | [Hpos (reset & Hl & Hreset)]].
  - assert (Hnew : window_state (<[ip := (1, now + RateLimit.windowMs)]> l)
                     ip t0 (0 + 1)).
    { right. split; [lia|]. exists (now + RateLimit.windowMs).
      rewrite lookup_insert_eq. split; [reflexivity|lia]. }
    destruct (l !! ip) as [[h reset]|] eqn:Hl; [|now split].
    specialize (Hnone h reset eq_refl).
    destruct (Z.ltb_spec now reset); [lia|now split].
  - rewrite Hl. destruct (Z.ltb_spec now reset); [|lia]. cbn. split; [reflexivity|].
    right. split; [lia|]. exists reset.
    rewrite lookup_insert_eq. now split.
Qed.

Lemma window_state_nonneg (l : RateLimit.store) ip t0 n :
  window_state l ip t0 n -> 0 <= n.
Proof. intros [[-> _]|[H _]]; lia. Qed.

Lemma increment_other (l : RateLimit.store) ip ip' now :
  ip' <> ip ->
  snd (RateLimit.increment now ip' l) !! ip = l !! ip.
Proof.
  intros Hne. unfold RateLimit.increment.
  destruct (l !! ip') as [[h reset]|]; [destruct (now <? reset)|];
    cbn; now rewrite lookup_insert_ne.
Qed.

Lemma window_state_other (l l' : RateLimit.store) ip t0 n :
  l' !! ip = l !! ip -> window_state l ip t0 n -> window_state l' ip t0 n.
Proof. unfold window_state. intros ->. auto. Qed.

(** The handlers never touch the quota store, and the store is updated
    without regard to the route. *)
Lemma app_post_limiter (E : env) (rq : request) (s : server) :
  srv_limiter (snd (app_post E rq s))
  = snd (RateLimit.increment (Date_now E 0) (req_ip rq) (srv_limiter s)).
Proof.
  unfold app_post, apiLimiter.
  destruct (RateLimit.increment _ _ _) as [hits l'].
  destruct (RateLimit.max <? hits); [reflexivity|].
  destruct (handler_of _ _ _ _). reflexivity.
Qed.

(** The middleware answers by itself exactly when the hit is beyond the
    maximum. *)
Lemma app_post_rejects (E : env) (rq : request) (s : server) :
  RateLimit.max < fst (RateLimit.increment (Date_now E 0) (req_ip rq) (srv_limiter s)) ->
  fst (app_post E rq s) = mkOutcome (Normal too_many_requests) [].
Proof.
  intros H. unfold app_post, apiLimiter.
  destruct (RateLimit.increment _ _ _) as [hits l']. cbn in H.
  destruct (Z.ltb_spec RateLimit.max hits); [reflexivity|lia].
Qed.

Lemma app_post_passes (E : env) (rq : request) (s : server) :
  fst (RateLimit.increment (Date_now E 0) (req_ip rq) (srv_limiter s)) <= RateLimit.max ->
  fst (app_post E rq s) = served E rq (srv_cache s).
Proof.
  intros H. unfold app_post, apiLimiter, served.
  destruct (RateLimit.increment _ _ _) as [hits l']. cbn in H.
  destruct (Z.ltb_spec RateLimit.max hits); [lia|].
  destruct (handler_of _ _ _ _). reflexivity.
Qed.

Lemma run_app (a b : list (env * request)) (s : server) :
  run (a ++ b) s
  = ((fst (run a s) ++ fst (run b (snd (run a s))))%list,
     snd (run b (snd (run a s)))).
Proof.
  revert s. induction a as [|[E rq] a IH]; intros s; cbn.
  - now destruct (run b s).
  - destruct (app_post E rq s) as [o s1]. rewrite IH.
    destruct (run a s1) as [oa s2]. cbn. now destruct (run b s2).
Qed.

Lemma run_length (reqs : list (env * request)) (s : server) :
  length (fst (run reqs s)) = length reqs.
Proof.
  revert s. induction reqs as [|[E rq] a IH]; intros s; cbn; [reflexivity|].
  destruct (app_post E rq s) as [o s1]. specialize (IH s1).
  destruct (run a s1). cbn in *. now rewrite IH.
Qed.

(** Serving requests moves the client's window by the number of its own
    requests, whatever their routes and whoever else is served in
    between. *)
Lemma run_window_state ip t0 :
  forall (reqs : list (env * request)) (s : server) (n : Z),
    window_state (srv_limiter s) ip t0 n ->
    Forall (arrives_within ip t0) (from_client ip reqs) ->
    window_state (srv_limiter (snd (run reqs s))) ip t0
      (n + Z.of_nat (length (from_client ip reqs))).
Proof.
  induction reqs as [|[E rq] reqs IH]; intros s n Hw Hall.
  - cbn. now rewrite Z.add_0_r.
  - cbn [run from_client List.filter snd] in *.
    pose proof (app_post_limiter E rq s) as Hl.
    destruct (app_post E rq s) as [o s1]. cbn [snd] in Hl.
    specialize (IH s1). destruct (run reqs s1) as [os s2] eqn:Hrun.
    cbn [snd] in *.
    destruct (String.eqb_spec (req_ip rq) ip) as [Hip|Hip].
    + inversion Hall as [|x xs [_ Hnow] Hrest]; subst x xs.
      cbn [fst snd] in Hnow.
      destruct (increment_within _ ip t0 n (Date_now E 0) Hw Hnow) as [_ Hw1].
      rewrite Hip in Hl. rewrite <- Hl in Hw1.
      specialize (IH (n + 1) Hw1 Hrest).
      unfold from_client in *. cbn [length].
      replace (n + Z.of_nat (S (length (List.filter
                 (fun x => String.eqb (req_ip (snd x)) ip) reqs))))
        with (n + 1 + Z.of_nat (length (List.filter
                 (fun x => String.eqb (req_ip (snd x)) ip) reqs))) by lia.
      exact IH.
    + apply IH; [|exact Hall].
      apply (window_state_other (srv_limiter s)); [|exact Hw].
      rewrite Hl. now apply increment_other.
Qed.

(** The core of C7 and C10.  Client [ip] has [n] hits on its window when
    the minute starts and sends [k] requests of its own among [pre], on
    whatever routes and with whatever other clients in between.  Its next
    request of that minute is answered 429 by the middleware, no handler
    being run, if [n + k] has reached the maximum, and is served by the
    handler of its route otherwise. *)
Lemma next_request ip t0 n (pre : list (env * request))
    (E : env) (rq : request) (post : list (env * request)) (s : server) :
  window_state (srv_limiter s) ip t0 n ->
  Forall (arrives_within ip t0) (from_client ip pre) ->
  arrives_within ip t0 (E, rq) ->
  exists o,
    fst (run (pre ++ (E, rq) :: post) s) !! length pre = Some o /\
    (RateLimit.max <= n + Z.of_nat (length (from_client ip pre)) ->
     o = mkOutcome (Normal too_many_requests) []) /\
    (n + Z.of_nat (length (from_client ip pre)) < RateLimit.max ->
     o = served E rq (srv_cache (snd (run pre s)))).
Proof.
  intros Hw Hpre [Hip Hnow]. cbn [fst snd] in Hip, Hnow.
  rewrite run_app. cbn [fst].
  rewrite lookup_app_r by (rewrite run_length; lia).
  rewrite run_length, Nat.sub_diag.
  pose proof (run_window_state ip t0 pre s n Hw Hpre) as Hw'.
  cbn [run].
  pose proof (app_post_rejects E rq (snd (run pre s))) as Hrej.
  pose proof (app_post_passes E rq (snd (run pre s))) as Hpass.
  destruct (increment_within _ ip t0 _ (Date_now E 0) Hw' Hnow) as [Hhits _].
  rewrite Hip, Hhits in Hrej, Hpass.
  destruct (app_post E rq (snd (run pre s))) as [o s1]. cbn [fst] in Hrej, Hpass.
  destruct (run post s1). cbn. exists o. split; [reflexivity|].
  split; intros H; [apply Hrej | apply Hpass]; lia.
Qed.

Lemma from_client_all ip (l : list (env * request)) :
  Forall (fun x => req_ip (snd x) = ip) l -> from_client ip l = l.
Proof.
  induction 1 as [|x l Hx _ IH]; [reflexivity|].
  unfold from_client in *. cbn. rewrite Hx, String.eqb_refl. now f_equal.
Qed.

Lemma startup_has_no_window (E : env) ip t0 :
  window_state (srv_limiter (startup E)) ip t0 0.
Proof.
  left. split; [reflexivity|]. intros h reset H.
  unfold startup in H. cbn [srv_limiter] in H. unfold RateLimit.empty in H.
  rewrite lookup_empty in H. discriminate.
Qed.

(** C7: requests of one client to one of the three routes, all within one
    minute, the client's window holding [n] hits for the whole of that
    minute ([n = 0]: no window is open when the minute starts).  The
    request number [i] (counted from 0) is served by the route's handler,
    whose answer is 200, 400 or 500, as long as [n + i < 15]; from
    [n + i = 15] on it is answered 429 with the body [{error, details}]
    and the handler is not run.  With [n = 0] the first fifteen requests
    are served and the sixteenth is answered 429. *)
Theorem each_route_is_limited_to_15_per_minute
    (r : route) (ip : string) (t0 n : Z)
    (reqs : list (env * request)) (s : server) :
  window_state (srv_limiter s) ip t0 n ->
  Forall (fun x => arrives_within ip t0 x /\ req_route (snd x) = r) reqs ->
  forall (i : nat) (o : outcome),
    fst (run reqs s) !! i = Some o ->
    (n + Z.of_nat i < 15 ->
     exists E b c,
       reqs !! i = Some (E, mkRequest ip r b) /\
       o = served E (mkRequest ip r b) c /\
       forall resp, sent o = Normal resp ->
                    code resp = 200 \/ code resp = 400 \/ code resp = 500) /\
    (15 <= n + Z.of_nat i ->
     o = mkOutcome
           (Normal (mkHttp 429
              (VObj [("error",
                      VStr "Too many requests, please try again after a minute.");
                     ("details", VStr "API rate limits apply.")])))
           []).
Proof.
  intros Hw Hall i o Ho.
  assert (Harr : Forall (arrives_within ip t0) reqs)
    by (eapply Forall_impl; [exact Hall | intros x [H _]; exact H]).
  assert (Hip : Forall (fun x => req_ip (snd x) = ip) reqs)
    by (eapply Forall_impl; [exact Harr | intros x [H _]; exact H]).
  assert (Hi : (i < length reqs)%nat).
  { rewrite <- (run_length reqs s). eapply lookup_lt_Some; eauto. }
  destruct (lookup_lt_is_Some_2 reqs i Hi) as [[E rq] Hx].
  pose proof (take_drop_middle reqs i (E, rq) Hx) as Heq.
  assert (Hfc : from_client ip (take i reqs) = take i reqs)
    by (apply from_client_all; now apply Forall_take).
  assert (Hl : length (take i reqs) = i) by (rewrite length_take; lia).
  destruct (proj1 (Forall_lookup _ _) Hall i (E, rq) Hx) as [Ha Hr].
  destruct (next_request ip t0 n (take i reqs) E rq (drop (S i) reqs) s)
    as (o' & Ho' & Hrej & Hpass); auto.
  { rewrite Hfc. now apply Forall_take. }
  rewrite Heq, Hl, Ho in Ho'. injection Ho' as <-.
  rewrite Hfc, Hl in Hrej, Hpass. unfold RateLimit.max in *.
  split; intros Hn.
  - destruct rq as [ip' r' b]. destruct Ha as [Hip' _]. cbn in Hip', Hr.
    subst ip' r'.
    exists E, b, (srv_cache (snd (run (take i reqs) s))).
    split; [exact Hx|]. split; [now apply Hpass|].
    intros resp Hsent. rewrite (Hpass Hn) in Hsent.
    unfold served in Hsent. cbn [sent req_route req_body] in Hsent.
    eapply handler_codes. exact Hsent.
  - now apply Hrej.
Qed.

Lemma each_route_is_limited_to_15_per_minute_witness :
  let reqs := repeat (offline, mkRequest a_client Translate hola_es) 16 in
  window_state (srv_limiter (startup offline)) a_client 0 0 /\
  Forall (fun x => arrives_within a_client 0 x /\ req_route (snd x) = Translate)
    reqs /\
  fst (run reqs (startup offline)) !! 15%nat
  = Some (mkOutcome (Normal too_many_requests) []) /\
  15 <= 0 + Z.of_nat 15 /\
  mkOutcome (Normal too_many_requests) []
  = mkOutcome
      (Normal (mkHttp 429
         (VObj [("error",
                 VStr "Too many requests, please try again after a minute.");
                ("details", VStr "API rate limits apply.")])))
      [].
Proof.
  cbv zeta.
  assert (Hall : Forall (fun x => arrives_within a_client 0 x
                                  /\ req_route (snd x) = Translate)
                   (repeat (offline, mkRequest a_client Translate hola_es) 16)).
  { repeat constructor; cbn; lia. }
  assert (Hrun : fst (run (repeat (offline, mkRequest a_client Translate hola_es) 16)
                        (startup offline)) !! 15%nat
                 = Some (mkOutcome (Normal too_many_requests) []))
    by (vm_compute; reflexivity).
  assert (Hn : 15 <= 0 + Z.of_nat 15) by (cbn; lia).
  split; [apply startup_has_no_window|]. split; [exact Hall|].
  split; [exact Hrun|]. split; [exact Hn|].
  exact (proj2 (each_route_is_limited_to_15_per_minute Translate a_client 0 0
                  (repeat (offline, mkRequest a_client Translate hola_es) 16)
                  (startup offline) (startup_has_no_window offline a_client 0)
                  Hall 15%nat _ Hrun) Hn).
Defined.

(** C10: the three routes draw on one counter per client.  Client [ip]
    has [n] hits on its window when the minute starts and sends the
    requests [pre] of its own within the minute, on any mix of the three
    routes and with any requests of other clients in between.  Each of
    them, whatever its route, has added one hit to the client's window,
    and so does the next request [rq] of the client, on whatever route.
    The quota store after a request does not depend on its route or body.
    While the hits used are fewer than fifteen, [rq] is served by the
    handler of its route; once they have reached fifteen, it is answered
    429 by the middleware and no handler runs. *)
Theorem quota_is_shared_by_the_three_routes
    (ip : string) (t0 n : Z) (pre : list (env * request))
    (E : env) (rq : request) (post : list (env * request)) (s : server) :
  window_state (srv_limiter s) ip t0 n ->
  Forall (arrives_within ip t0) (from_client ip pre) ->
  arrives_within ip t0 (E, rq) ->
  let used := n + Z.of_nat (length (from_client ip pre)) in
  window_state (srv_limiter (snd (run pre s))) ip t0 used /\
  window_state (srv_limiter (snd (run (pre ++ [(E, rq)]) s))) ip t0 (used + 1) /\
  (forall (r r' : route) (b b' : value) (s0 : server),
      srv_limiter (snd (app_post E (mkRequest ip r b) s0))
      = srv_limiter (snd (app_post E (mkRequest ip r' b') s0))) /\
  (used < 15 ->
   fst (run (pre ++ (E, rq) :: post) s) !! length pre
   = Some (served E rq (srv_cache (snd (run pre s))))) /\
  (15 <= used ->
   fst (run (pre ++ (E, rq) :: post) s) !! length pre
   = Some (mkOutcome (Normal (mkHttp 429 RateLimit.message)) [])).
Proof.
  intros Hw Hpre Harr. cbv zeta.
  split; [now apply run_window_state|].
  split.
  { assert (Hfrom : from_client ip (pre ++ [(E, rq)])
                    = (from_client ip pre ++ [(E, rq)])%list).
    { unfold from_client. rewrite List.filter_app. cbn [List.filter snd].
      destruct Harr as [Hip _]. cbn [snd] in Hip.
      now rewrite Hip, String.eqb_refl. }
    pose proof (run_window_state ip t0 (pre ++ [(E, rq)]) s n Hw) as H.
    rewrite Hfrom, length_app in H. cbn [length] in H.
    replace (n + Z.of_nat (length (from_client ip pre) + 1))
      with (n + Z.of_nat (length (from_client ip pre)) + 1) in H by lia.
    apply H. apply Forall_app. split; [exact Hpre|].
    constructor; [exact Harr|constructor]. }
  split.
  { intros r r' b b' s0. now rewrite !app_post_limiter. }
  destruct (next_request ip t0 n pre E rq post s Hw Hpre Harr)
    as (o & Ho & Hrej & Hpass).
  split; intros Hn; rewrite Ho; f_equal.
  - apply Hpass. unfold RateLimit.max. lia.
  - apply Hrej. unfold RateLimit.max. lia.
Qed.

Lemma quota_is_shared_by_the_three_routes_witness :
  window_state (srv_limiter (startup offline)) a_client 0 0 /\
  Forall (arrives_within a_client 0) (from_client a_client (take 15 eight_and_eight)) /\
  arrives_within a_client 0
    (offline, mkRequest a_client Summarize (VObj [("text", VStr "abc")])) /\
  15 <= 0 + Z.of_nat (length (from_client a_client (take 15 eight_and_eight))) /\
  fst (run eight_and_eight (startup offline)) !! 15%nat
  = Some (mkOutcome (Normal (mkHttp 429 RateLimit.message)) []).
Proof.
  assert (Hpre : Forall (arrives_within a_client 0)
                   (from_client a_client (take 15 eight_and_eight))).
  { replace (from_client a_client (take 15 eight_and_eight))
      with (take 15 eight_and_eight) by (vm_compute; reflexivity).
    unfold eight_and_eight. cbn [repeat app take firstn].
    repeat constructor; cbn; lia. }
  assert (Harr : arrives_within a_client 0
            (offline, mkRequest a_client Summarize (VObj [("text", VStr "abc")]))).
  { split; [reflexivity | split; [now vm_compute | reflexivity]]. }
  assert (Hn : 15 <= 0 + Z.of_nat (length (from_client a_client
                                              (take 15 eight_and_eight))))
    by now vm_compute.
  split; [apply startup_has_no_window|]. split; [exact Hpre|].
  split; [exact Harr|]. split; [exact Hn|].
  exact (proj2 (proj2 (proj2 (proj2
           (quota_is_shared_by_the_three_routes a_client 0 0
              (take 15 eight_and_eight) offline
              (mkRequest a_client Summarize (VObj [("text", VStr "abc")]))
              [] (startup offline)
              (startup_has_no_window offline a_client 0)
              Hpre Harr)))) Hn).
Defined.

(* ================================================================== *)
(** ** More about [retryRequest] *)
(* ================================================================== *)

Lemma Qred_inject_Z (z : Z) : Qred (inject_Z z) = inject_Z z.
Proof. apply Qcanon.Qred_identity. cbn. apply Z.gcd_1_r. Qed.

Lemma nmul_of_Z (a b : Z) : nmul (of_Z a) (of_Z b) = of_Z (a * b).
Proof.
  unfold nmul, of_Z. f_equal. rewrite <- (Qred_inject_Z (a * b)).
  apply Qred_complete. unfold inject_Z, Qmult, Qeq. cbn. lia.
Qed.

Lemma retry_delay_default_of_Z (h : gmap string string) (d : Z) :
  h !! "retry-after" = None -> retry_delay h (of_Z d) = of_Z d.
Proof.
  intros H. unfold of_Z. rewrite (retry_delay_default h _ H).
  now rewrite Qred_inject_Z.
Qed.

Lemma timers_app (t u : list effect) :
  timers (t ++ u) = (timers t ++ timers u)%list.
Proof.
  induction t as [|e t IH]; [reflexivity|].
  destruct e; cbn; now rewrite ?IH.
Qed.

Lemma axios_settle_Normal (rep : reply) (r : response) :
  axios_settle rep = Normal r ->
  rep = Responded r /\ 200 <= status r < 300.
Proof.
  destruct rep as [r'|m]; cbn; [|discriminate].
  destruct (Z.leb_spec 200 (status r')); cbn; [|discriminate].
  destruct (Z.ltb_spec (status r') 300); cbn; [|discriminate].
  intros [= ->]. split; [reflexivity|lia].
Qed.

Lemma posts_snoc_post (t : list effect) url b h :
  length (posts (t ++ [Post url b h])) = S (length (posts t)).
Proof. rewrite posts_app, length_app. cbn. lia. Qed.

Lemma posts_retry_step (t : list effect) url b h s n d :
  posts (t ++ [Post url b h] ++ [ConsoleLog s n] ++ [SetTimeout d])
  = (posts t ++ [Post url b h])%list.
Proof. now rewrite posts_app. Qed.

Lemma retryRequest_shape E url body hdrs :
  forall (retries : nat) (d : number) (w : world),
  exists (k : nat) (t : list effect),
    snd (retryRequest E url body hdrs retries d w)
    = mkWorld (w_cache w) (w_trace w ++ t) /\
    (1 <= k <= S retries)%nat /\
    posts t = repeat (Post url body hdrs) k /\
    length (timers t) = (k - 1)%nat /\
    Forall (fun e => is_retry_effect e = true) t.
Proof.
  induction retries as [|n IH]; intros d w; rewrite retryRequest_unfold.
  - exists 1%nat, [Post url body hdrs].
    assert (Hone : Forall (fun e => is_retry_effect e = true)
                     [Post url body hdrs]) by (repeat constructor).
    destruct (axios_settle _) as [r|err];
      [|destruct (error_response err)];
      (split; [reflexivity|]); repeat split; auto.
  - assert (Hone : forall c : completion response,
              exists (k : nat) (t : list effect),
                snd (c, posted w url body hdrs)
                = mkWorld (w_cache w) (w_trace w ++ t) /\
                (1 <= k <= S (S n))%nat /\
                posts t = repeat (Post url body hdrs) k /\
                length (timers t) = (k - 1)%nat /\
                Forall (fun e => is_retry_effect e = true) t).
    { intros c. exists 1%nat, [Post url body hdrs].
      split; [reflexivity|]. repeat split; auto; try lia. }
    destruct (axios_settle _) as [r|err]; [apply Hone|].
    destruct (error_response err) as [resp|]; [|apply Hone].
    destruct (status resp =? 429); [|apply Hone].
    destruct (quota_exceeded (Js.data resp)) as [[|]|e]; try apply Hone.
    cbv zeta. set (delay := retry_delay (Js.headers resp) d).
    destruct (IH (nmul d (of_Z 2))
                (mkWorld (w_cache w)
                   (w_trace w ++ [Post url body hdrs]
                      ++ [ConsoleLog (ndiv delay (of_Z 1000)) (S n)]
                      ++ [SetTimeout delay])))
      as (k & t & Hw & Hk & Hp & Ht & Hall).
    exists (S k),
      ([Post url body hdrs; ConsoleLog (ndiv delay (of_Z 1000)) (S n);
        SetTimeout delay] ++ t)%list.
    split.
    { rewrite Hw. cbn [w_cache w_trace]. f_equal.
      now rewrite <- !app_assoc. }
    split; [lia|]. split; [rewrite posts_app, Hp; reflexivity|].
    split; [rewrite timers_app, length_app, Ht; cbn; lia|].
    repeat constructor. exact Hall.
Qed.

(** X1.  Whatever the upstream does, [retryRequest] leaves the cache
    alone and only appends to the trace, and what it appends is fixed by
    the delays it waited for: for each wait a POST of the very request it
    was given, the console line (the delay in seconds and the attempts
    left, counting down from [retries]) and the timer, in this order,
    and then one last POST.  So there is exactly one timer between two
    consecutive POSTs, none before the first and none after the last, and
    the POSTs are at least one and at most [retries + 1]. *)
Theorem retryRequest_attempts_are_bounded E url body hdrs :
  forall (retries : nat) (d : number) (w : world),
  exists delays : list number,
    (length delays <= retries)%nat /\
    snd (retryRequest E url body hdrs retries d w)
    = mkWorld (w_cache w)
        (w_trace w ++ attempts url body hdrs retries delays).
Proof.
  induction retries as [|n IH]; intros d w; rewrite retryRequest_unfold.
  - exists []. split; [reflexivity|].
    destruct (axios_settle _) as [r|err];
      [|destruct (error_response err)]; reflexivity.
  - assert (Hone : forall c : completion response,
              exists delays : list number,
                (length delays <= S n)%nat /\
                snd (c, posted w url body hdrs)
                = mkWorld (w_cache w)
                    (w_trace w ++ attempts url body hdrs (S n) delays)).
    { intros c. exists []. split; [cbn; lia | reflexivity]. }
    destruct (axios_settle _) as [r|err]; [apply Hone|].
    destruct (error_response err) as [resp|]; [|apply Hone].
    destruct (status resp =? 429); [|apply Hone].
    destruct (quota_exceeded (Js.data resp)) as [[|]|e]; try apply Hone.
    cbv zeta. set (delay := retry_delay (Js.headers resp) d).
    destruct (IH (nmul d (of_Z 2))
                (mkWorld (w_cache w)
                   (w_trace w ++ [Post url body hdrs]
                      ++ [ConsoleLog (ndiv delay (of_Z 1000)) (S n)]
                      ++ [SetTimeout delay])))
      as (delays & Hlen & Hw).
    exists (delay :: delays). split; [cbn; lia|].
    rewrite Hw. cbn [w_cache w_trace attempts Nat.pred]. f_equal.
    now rewrite <- !app_assoc.
Qed.

(** X2.  How a call ends is decided by the answer to its last POST.  It
    resolves only with a 2xx answer, and that answer is the one to the
    last POST.  It rejects either with the very error axios raised for the
    last POST, or, that answer being a 429, with the 'quota exhausted'
    error when the quota test is true, or with what the quota test itself
    throws. *)
Theorem retryRequest_ends_with_last_reply E url body hdrs :
  forall (retries : nat) (d : number) (w : world),
    let res := retryRequest E url body hdrs retries d w in
    let rep := last_reply E url body hdrs (w_trace (snd res)) in
    match fst res with
    | Normal r => rep = Responded r /\ 200 <= status r < 300
    | Throw e =>
        axios_settle rep = Throw e \/
        exists resp,
          rep = Responded resp /\ status resp = 429 /\
          ((quota_exceeded (Js.data resp) = Normal true /\ e = quota_error) \/
           quota_exceeded (Js.data resp) = Throw e)
    end.
Proof.
  induction retries as [|n IH]; intros d w; cbv zeta;
    rewrite retryRequest_unfold; unfold last_reply.
  - destruct (axios_settle _) as [r|err] eqn:Hs;
      [|destruct (error_response err)];
      cbn [fst snd posted w_trace]; rewrite posts_snoc_post;
      cbn [Nat.sub]; rewrite Nat.sub_0_r;
      [now apply axios_settle_Normal | now left | now left].
  - destruct (axios_settle _) as [r|err] eqn:Hs.
    { cbn [fst snd posted w_trace]. rewrite posts_snoc_post.
      cbn [Nat.sub]; rewrite Nat.sub_0_r. now apply axios_settle_Normal. }
    destruct (error_response err) as [resp|] eqn:Hresp.
    2:{ cbn [fst snd posted w_trace]. rewrite posts_snoc_post.
        cbn [Nat.sub]; rewrite Nat.sub_0_r. now left. }
    assert (Hrep : net E (length (posts (w_trace w))) url body hdrs
                   = Responded resp).
    { destruct (net E _ url body hdrs) as [r'|m]; cbn in Hs.
      - destruct ((200 <=? status r') && (status r' <? 300)); [discriminate|].
        injection Hs as <-. cbn in Hresp. now injection Hresp as ->.
      - injection Hs as <-. discriminate. }
    destruct (Z.eqb_spec (status resp) 429) as [H429|H429].
    2:{ cbn [fst snd posted w_trace]. rewrite posts_snoc_post.
        cbn [Nat.sub]; rewrite Nat.sub_0_r. now left. }
    destruct (quota_exceeded (Js.data resp)) as [[|]|e] eqn:Hq.
    + cbn [fst snd posted w_trace]. rewrite posts_snoc_post.
      cbn [Nat.sub]; rewrite Nat.sub_0_r. right. exists resp. auto.
    + apply IH.
    + cbn [fst snd posted w_trace]. rewrite posts_snoc_post.
      cbn [Nat.sub]; rewrite Nat.sub_0_r. right. exists resp. auto.
Qed.

(** The delays of consecutive retries without a [retry-after] header, in
    the exact arithmetic of the model. *)
Lemma retryRequest_backoff E url body hdrs :
  forall (k retries : nat) (d : Z) (w : world)
         (rs : nat -> response) (r : response),
    (k <= retries)%nat ->
    (forall i, (i < k)%nat ->
       net E (length (posts (w_trace w)) + i) url body hdrs = Responded (rs i) /\
       status (rs i) = 429 /\
       Js.headers (rs i) !! "retry-after" = None /\
       quota_exceeded (Js.data (rs i)) = Normal false) ->
    net E (length (posts (w_trace w)) + k) url body hdrs = Responded r ->
    200 <= status r < 300 ->
    exists t,
      retryRequest E url body hdrs retries (of_Z d) w
      = (Normal r, mkWorld (w_cache w) (w_trace w ++ t)) /\
      length (posts t) = S k /\
      timers t = map (fun i => of_Z (d * 2 ^ Z.of_nat i)) (seq 0 k).
Proof.
  induction k as [|k IH]; intros retries d w rs r Hk Hrs Hr Hok.
  - rewrite Nat.add_0_r in Hr. exists [Post url body hdrs].
    rewrite retryRequest_unfold, Hr. unfold axios_settle.
    replace ((200 <=? status r) && (status r <? 300)) with true
      by (symmetry; apply andb_true_iff; split;
          [apply Z.leb_le | apply Z.ltb_lt]; lia).
    repeat split.
  - destruct retries as [|n]; [lia|].
    destruct (Hrs 0%nat) as (Hnet & Hs & Hh & Hq); [lia|].
    rewrite Nat.add_0_r in Hnet.
    rewrite (retryRequest_retries _ _ _ _ _ _ _ _ Hnet Hs Hq).
    rewrite (retry_delay_default_of_Z _ d Hh), nmul_of_Z.
    set (w1 := mkWorld _ _).
    assert (Hlen : length (posts (w_trace w1)) = S (length (posts (w_trace w)))).
    { unfold w1. cbn [w_trace]. rewrite posts_retry_step, length_app. cbn. lia. }
    destruct (IH n (d * 2) w1 (fun i => rs (S i)) r) as (t & Hrun & Hp & Ht);
      [lia | | | exact Hok |].
    { intros i Hi. rewrite Hlen.
      replace (S (length (posts (w_trace w))) + i)%nat
        with (length (posts (w_trace w)) + S i)%nat by lia.
      apply Hrs. lia. }
    { rewrite Hlen.
      replace (S (length (posts (w_trace w))) + k)%nat
        with (length (posts (w_trace w)) + S k)%nat by lia.
      exact Hr. }
    exists ([Post url body hdrs; ConsoleLog (ndiv (of_Z d) (of_Z 1000)) (S n);
             SetTimeout (of_Z d)] ++ t)%list.
    split; [|split].
    + rewrite Hrun. unfold w1. cbn [w_cache w_trace]. do 2 f_equal.
      now rewrite <- !app_assoc.
    + rewrite posts_app, length_app, Hp. reflexivity.
    + rewrite timers_app, Ht. cbn [timers app seq map]. f_equal.
      * f_equal. cbn. lia.
      * rewrite <- seq_shift, map_map. apply map_ext. intros i.
        f_equal. rewrite Nat2Z.inj_succ, Z.pow_succ_r by lia. lia.
Qed.

(** X3.  Exponential backoff.  When the first [k] answers are 429s
    without a [retry-after] header (and with a false quota test), [k] not
    exceeding the retries, and the next answer is 2xx, the call resolves
    with that answer after [k + 1] POSTs, and the timers it armed are the
    initial delay doubled each time: [d], [2d], [4d], ...  The initial
    delay is a whole number of seconds and the delays stay within [2^53]
    ms: there the division by 1000, the multiplication by 1000 and the
    doubling of the runtime are exact. *)
Theorem retryRequest_backoff_doubles E url body hdrs :
  forall (k retries : nat) (d : Z) (w : world)
         (rs : nat -> response) (r : response),
    0 <= d ->
    d mod 1000 = 0 ->
    d * 2 ^ Z.of_nat k <= 2 ^ 53 ->
    (k <= retries)%nat ->
    (forall i, (i < k)%nat ->
       net E (length (posts (w_trace w)) + i) url body hdrs = Responded (rs i) /\
       status (rs i) = 429 /\
       Js.headers (rs i) !! "retry-after" = None /\
       quota_exceeded (Js.data (rs i)) = Normal false) ->
    net E (length (posts (w_trace w)) + k) url body hdrs = Responded r ->
    200 <= status r < 300 ->
    exists t,
      retryRequest E url body hdrs retries (of_Z d) w
      = (Normal r, mkWorld (w_cache w) (w_trace w ++ t)) /\
      length (posts t) = S k /\
      timers t = map (fun i => of_Z (d * 2 ^ Z.of_nat i)) (seq 0 k).
Proof.
  intros k retries d w rs r _ _ _. apply retryRequest_backoff.
Qed.

Lemma backoff_doubles_witness :
  let E := scripted (fun n => if (n <? 2)%nat
                              then Responded (mkResponse 429 ∅ VUndefined)
                              else Responded (chat_ok "done")) in
  0 <= 2000 /\
  2000 mod 1000 = 0 /\
  2000 * 2 ^ Z.of_nat 2 <= 2 ^ 53 /\
  (2 <= 5)%nat /\
  200 <= status (chat_ok "done") < 300 /\
  exists t,
    retryRequest E "u" a_chat_body [] 5 (of_Z 2000) fresh
    = (Normal (chat_ok "done"), mkWorld Cache.empty t) /\
    length (posts t) = 3%nat /\
    timers t = [of_Z 2000; of_Z 4000].
Proof.
  cbv zeta.
  assert (Hok : 200 <= status (chat_ok "done") < 300) by (cbn; lia).
  assert (H0 : 0 <= 2000) by lia.
  assert (H53 : 2000 * 2 ^ Z.of_nat 2 <= 2 ^ 53) by (cbn; lia).
  split; [exact H0|]. split; [reflexivity|]. split; [exact H53|].
  split; [lia|]. split; [exact Hok|].
  destruct (retryRequest_backoff_doubles
              (scripted (fun n => if (n <? 2)%nat
                                  then Responded (mkResponse 429 ∅ VUndefined)
                                  else Responded (chat_ok "done")))
              "u" a_chat_body [] 2 5 2000 fresh
              (fun _ => mkResponse 429 ∅ VUndefined) (chat_ok "done"))
    as (t & Hrun & Hp & Ht).
  - exact H0.
  - reflexivity.
  - exact H53.
  - lia.
  - intros i Hi. destruct i as [|[|i]]; [| |lia]; repeat split; reflexivity.
  - reflexivity.
  - exact Hok.
  - exists t. split; [exact Hrun|]. split; [exact Hp|exact Ht].
Defined.

Lemma retryRequest_waits_then_reissues_witness :
  let E := scripted (fun n => match n with
                              | O => Responded throttled_retry_after_3
                              | _ => Responded (chat_ok "done")
                              end) in
  net E 0 "u" a_chat_body [] = Responded throttled_retry_after_3 /\
  status throttled_retry_after_3 = 429 /\
  quota_exceeded (Js.data throttled_retry_after_3) = Normal false /\
  exists delay,
    retryRequest E "u" a_chat_body [] 5 (Fin 2000) fresh
    = retryRequest E "u" a_chat_body [] 4 (Fin (Qred (2000 * 2)))
        (mkWorld Cache.empty
           ([] ++ [Post "u" a_chat_body []]
               ++ [ConsoleLog (ndiv delay (of_Z 1000)) 5]
               ++ [SetTimeout delay])) /\
    ("3" <> "" -> delay = nmul (StringToNumber "3") (of_Z 1000)).
Proof.
  cbv zeta. repeat (split; [reflexivity|]).
  exact (retryRequest_waits_then_reissues
           (scripted (fun n => match n with
                               | O => Responded throttled_retry_after_3
                               | _ => Responded (chat_ok "done")
                               end))
           "u" a_chat_body [] 4 2000 fresh throttled_retry_after_3
           eq_refl eq_refl eq_refl).
Defined.

(* ================================================================== *)
(** ** More about the handlers *)
(* ================================================================== *)

Lemma retryRequest_default_world E url body hdrs (w w' : world)
    (c : completion response) :
  retryRequest_default E url body hdrs w = (c, w') ->
  exists t,
    w' = mkWorld (w_cache w) (w_trace w ++ t) /\
    (1 <= length (posts t))%nat /\
    cache_keys t = [] /\
    emitted t = [].
Proof.
  intros H. unfold retryRequest_default in H.
  destruct (retryRequest_shape E url body hdrs 5 (of_Z 2000) w)
    as (k & t & Hw & Hk & Hp & _ & Hall).
  rewrite H in Hw. cbn [snd] in Hw. exists t. split; [exact Hw|].
  split; [rewrite Hp, repeat_length; lia|].
  clear -Hall. induction Hall as [|e t He _ IH]; [split; reflexivity|].
  destruct IH as [IHk IHe].
  destruct e; cbn in He; try discriminate; cbn; auto.
Qed.

Lemma field_get (b : value) (k : string) (v : value) :
  get_field b k = Normal v -> field b k = v.
Proof. unfold field. now intros ->. Qed.

Lemma destructure_field (b : value) (k src : string) :
  b <> VUndefined -> b <> VNull ->
  destructure b k src = Normal (field b k).
Proof. destruct b; intros Hu Hn; try contradiction; reflexivity. Qed.

(** X4.  With a body that is there (anything but [undefined] and
    [null]), a handler answers with 200, 400 or 500 whenever a required
    field is missing or the texts of the request convert to strings: every
    failure of the upstream calls and of the reading of their answers is
    caught.  When the required fields are there and one of them does not
    convert to a string (an object with an own [toString] property), the
    template literal of the cache key throws outside the [try]: the
    handler throws that TypeError right after its first status event and
    answers nothing.  Without a body the destructuring at the top of the
    handler throws before any effect. *)
Theorem handlers_always_answer (E : env) (r : route) (b : value) (w : world) :
  (b <> VUndefined -> b <> VNull ->
   (has_required r b = false \/ (exists k, route_key r b = Normal k) ->
    exists resp,
      fst (handler_of E r b w) = Normal resp /\
      (code resp = 200 \/ code resp = 400 \/ code resp = 500)) /\
   (forall e,
      has_required r b = true -> route_key r b = Throw e ->
      handler_of E r b w
      = (Throw e, mkWorld (w_cache w) (w_trace w ++ [started_event r])))) /\
  (b = VUndefined \/ b = VNull ->
   exists m, handler_of E r b w = (Throw (TypeError m), w)).
Proof.
  split.
  - intros Hu Hn. split.
    + intros Hc.
      destruct r; cbn [handler_of];
        [unfold translate_handler | unfold summarize_handler
        | unfold analyze_symptoms_handler];
        rewrite !(destructure_field b _ _ Hu Hn);
        unfold has_required, route_key in Hc;
        cbn [forallb required_fields] in Hc;
        run_handler; cbn [fst code]; eauto;
        exfalso; destruct Hc as [Hc | [k Hc]];
        repeat match goal with
               | H : negb _ = false |- _ => apply negb_false_iff in H
               | H : _ || _ = false |- _ => apply orb_false_iff in H as [? ?]
               end;
        repeat match goal with
               | H : truthy _ = true |- _ => rewrite H in Hc
               | H : to_string _ = _ |- _ => rewrite H in Hc
               end;
        discriminate.
    + intros e Hr Hk.
      destruct r; cbn [handler_of];
        [unfold translate_handler | unfold summarize_handler
        | unfold analyze_symptoms_handler];
        rewrite !(destructure_field b _ _ Hu Hn);
        unfold has_required, route_key in Hr, Hk;
        cbn [forallb required_fields] in Hr;
        rewrite ?andb_true_r in Hr; unfold_monad;
        try (apply andb_true_iff in Hr as [Hr Hr']; rewrite Hr');
        rewrite Hr; unfold_monad; cbn [negb orb started_event];
        repeat match goal with
               | H : context [match to_string ?v with _ => _ end] |- _ =>
                   destruct (to_string v) eqn:?
               end;
        try discriminate; injection Hk as <-; reflexivity.
  - intros [-> | ->]; destruct r; cbn; eauto.
Qed.

(** A body whose text is an object with an own [toString] property. *)
Lemma handlers_always_answer_witness :
  let odd := VObj [("text", VObj [("toString", VBool true)])] in
  let e := TypeError "Cannot convert object to primitive value" in
  VObj [] <> VUndefined /\ VObj [] <> VNull /\
  has_required Summarize (VObj []) = false /\
  has_required Summarize odd = true /\
  route_key Summarize odd = Throw e /\
  (VUndefined = VUndefined \/ VUndefined = VNull) /\
  (exists resp,
     fst (handler_of offline Summarize (VObj []) fresh) = Normal resp /\
     (code resp = 200 \/ code resp = 400 \/ code resp = 500)) /\
  handler_of offline Summarize odd fresh
  = (Throw e, mkWorld Cache.empty [Emit "summarize" "Summarizing..."]) /\
  (exists m,
     handler_of offline Summarize VUndefined fresh = (Throw (TypeError m), fresh)).
Proof.
  cbv zeta.
  assert (H1 : VObj [] <> VUndefined) by discriminate.
  assert (H2 : VObj [] <> VNull) by discriminate.
  assert (H1' : VObj [("text", VObj [("toString", VBool true)])] <> VUndefined)
    by discriminate.
  assert (H2' : VObj [("text", VObj [("toString", VBool true)])] <> VNull)
    by discriminate.
  assert (H3 : VUndefined = VUndefined \/ VUndefined = VNull) by (left; reflexivity).
  split; [exact H1|]. split; [exact H2|].
  split; [reflexivity|]. split; [reflexivity|]. split; [reflexivity|].
  split; [exact H3|].
  split; [|split].
  - exact (proj1 (proj1 (handlers_always_answer offline Summarize (VObj []) fresh)
                    H1 H2) (or_introl eq_refl)).
  - exact (proj2 (proj1 (handlers_always_answer offline Summarize
                           (VObj [("text", VObj [("toString", VBool true)])])
                           fresh) H1' H2')
             (TypeError "Cannot convert object to primitive value")
             eq_refl eq_refl).
  - exact (proj2 (handlers_always_answer offline Summarize VUndefined fresh) H3).
Defined.

(** X5.  Only a 200 answer can come with a changed cache: when a handler
    answers 400 or 500, or throws, the cache is what it was.  Failures are
    never cached. *)
Theorem errors_are_not_cached
    (E : env) (r : route) (b : value) (c : Cache.store)
    (res : completion http_response) (w' : world) :
  handler_of E r b (mkWorld c []) = (res, w') ->
  (forall resp, res = Normal resp -> code resp <> 200) ->
  w_cache w' = c.
Proof.
  destruct r; cbn [handler_of];
    [unfold translate_handler | unfold summarize_handler
    | unfold analyze_symptoms_handler];
    run_handler; intros [= <- <-] Hne; cbn [w_cache];
    try reflexivity;
    try (exfalso; eapply Hne; [reflexivity | reflexivity]);
    match goal with
    | H : retryRequest_default _ _ _ _ _ = _ |- _ =>
        apply retryRequest_default_world in H;
        destruct H as (t & Hw & _); cbn [w_cache w_trace] in Hw;
        injection Hw as -> _; reflexivity
    end.
Qed.

Lemma errors_are_not_cached_witness :
  let E := scripted (fun _ => Responded (mkResponse 503 ∅ VNull)) in
  let b := VObj [("symptoms", VStr "fever")] in
  (forall resp,
     fst (handler_of E AnalyzeSymptoms b (mkWorld Cache.empty [])) = Normal resp ->
     code resp <> 200) /\
  w_cache (snd (handler_of E AnalyzeSymptoms b (mkWorld Cache.empty [])))
  = Cache.empty.
Proof.
  cbv zeta.
  assert (Hne : forall resp,
            fst (handler_of (scripted (fun _ => Responded (mkResponse 503 ∅ VNull)))
                   AnalyzeSymptoms (VObj [("symptoms", VStr "fever")])
                   (mkWorld Cache.empty [])) = Normal resp ->
            code resp <> 200).
  { intros resp H. vm_compute in H. injection H as <-. cbn. lia. }
  split; [exact Hne|].
  exact (errors_are_not_cached _ _ _ _ _ _ (surjective_pairing _) Hne).
Defined.

Lemma translate_hit (E : env) (b : value) (c : Cache.store)
    (text target v : value) (text_str target_str : string) :
  truthy v = true ->
  get_field b "text" = Normal text ->
  get_field b "targetLanguage" = Normal target ->
  truthy text = true -> truthy target = true ->
  to_string text = Normal text_str ->
  to_string target = Normal target_str ->
  Cache.get (Date_now E 1) (translate_key text_str target_str) c = Some v ->
  translate_handler E b (mkWorld c [])
  = (Normal (mkHttp 200 v),
     mkWorld c [Emit "translate" "Translating...";
                CacheGet (translate_key text_str target_str);
                Emit "translate" "Translation complete (cached)."]).
Proof.
  intros Hv Ht Htg Htt Htgt Hs Hst Hhit. unfold translate_handler. unfold_monad.
  rewrite !(destructure_get_field b "text" _ _ _ Ht), Ht, Htg, Htt, Htgt.
  cbn [negb orb app length]. rewrite Hs, Hst.
  fold (translate_key text_str target_str).
  rewrite Hhit. cbn [from_option id]. now rewrite Hv.
Qed.

Lemma summarize_hit (E : env) (b : value) (c : Cache.store) (text v : value)
    (text_str : string) :
  truthy v = true ->
  get_field b "text" = Normal text ->
  truthy text = true ->
  to_string text = Normal text_str ->
  Cache.get (Date_now E 1) (summarize_key text_str) c = Some v ->
  summarize_handler E b (mkWorld c [])
  = (Normal (mkHttp 200 (VObj [("summary", v)])),
     mkWorld c [Emit "summarize" "Summarizing...";
                CacheGet (summarize_key text_str);
                Emit "summarize" "Summarization complete (cached)."]).
Proof.
  intros Hv Ht Htt Hs Hhit. unfold summarize_handler. unfold_monad.
  rewrite (destructure_get_field b "text" _ _ _ Ht), Ht, Htt.
  cbn [negb app length]. rewrite Hs. fold (summarize_key text_str).
  rewrite Hhit. cbn [from_option id]. now rewrite Hv.
Qed.

Lemma symptoms_hit (E : env) (b : value) (c : Cache.store)
    (symptoms v : value) (symptoms_str : string) :
  truthy v = true ->
  get_field b "symptoms" = Normal symptoms ->
  truthy symptoms = true ->
  to_string symptoms = Normal symptoms_str ->
  Cache.get (Date_now E 1) (symptoms_key symptoms_str) c = Some v ->
  analyze_symptoms_handler E b (mkWorld c [])
  = (Normal (mkHttp 200 (VObj [("analysis", v)])),
     mkWorld c [Emit "symptoms" "Analyzing symptoms...";
                CacheGet (symptoms_key symptoms_str);
                Emit "symptoms" "Analysis complete (cached)."]).
Proof.
  intros Hv Ht Htt Hs Hhit. unfold analyze_symptoms_handler. unfold_monad.
  rewrite (destructure_get_field b "symptoms" _ _ _ Ht), Ht, Htt.
  cbn [negb app length]. rewrite Hs. fold (symptoms_key symptoms_str).
  rewrite Hhit. cbn [from_option id]. now rewrite Hv.
Qed.

(** X6.  A cache hit.  When the texts of the request convert to strings
    and the cache holds a truthy value under the key made of them, each
    handler answers 200 with that value right after the read: no POST is
    made (so the AI-provider key is not needed either), and the cache
    stays as it is. *)
Theorem cache_hit_needs_no_upstream
    (E : env) (b : value) (c : Cache.store) (v : value) :
  truthy v = true ->
  (forall text target text_str target_str,
     get_field b "text" = Normal text ->
     get_field b "targetLanguage" = Normal target ->
     truthy text = true -> truthy target = true ->
     to_string text = Normal text_str ->
     to_string target = Normal target_str ->
     Cache.get (Date_now E 1) (translate_key text_str target_str) c = Some v ->
     translate_handler E b (mkWorld c [])
     = (Normal (mkHttp 200 v),
        mkWorld c [Emit "translate" "Translating...";
                   CacheGet (translate_key text_str target_str);
                   Emit "translate" "Translation complete (cached)."])) /\
  (forall text text_str,
     get_field b "text" = Normal text ->
     truthy text = true ->
     to_string text = Normal text_str ->
     Cache.get (Date_now E 1) (summarize_key text_str) c = Some v ->
     summarize_handler E b (mkWorld c [])
     = (Normal (mkHttp 200 (VObj [("summary", v)])),
        mkWorld c [Emit "summarize" "Summarizing...";
                   CacheGet (summarize_key text_str);
                   Emit "summarize" "Summarization complete (cached)."])) /\
  (forall symptoms symptoms_str,
     get_field b "symptoms" = Normal symptoms ->
     truthy symptoms = true ->
     to_string symptoms = Normal symptoms_str ->
     Cache.get (Date_now E 1) (symptoms_key symptoms_str) c = Some v ->
     analyze_symptoms_handler E b (mkWorld c [])
     = (Normal (mkHttp 200 (VObj [("analysis", v)])),
        mkWorld c [Emit "symptoms" "Analyzing symptoms...";
                   CacheGet (symptoms_key symptoms_str);
                   Emit "symptoms" "Analysis complete (cached)."])).
Proof.
  intros Hv. repeat split; intros.
  - now apply (translate_hit E b c text target v text_str target_str).
  - now apply (summarize_hit E b c text v text_str).
  - now apply (symptoms_hit E b c symptoms v symptoms_str).
Qed.

Lemma cache_hit_needs_no_upstream_witness :
  let c := Cache.set 0 "summarize:abc" (VStr "short") Cache.empty in
  let b := VObj [("text", VStr "abc")] in
  truthy (VStr "short") = true /\
  get_field b "text" = Normal (VStr "abc") /\
  truthy (VStr "abc") = true /\
  to_string (VStr "abc") = Normal "abc" /\
  Cache.get (Date_now offline 1) (summarize_key "abc") c
  = Some (VStr "short") /\
  summarize_handler offline b (mkWorld c [])
  = (Normal (mkHttp 200 (VObj [("summary", VStr "short")])),
     mkWorld c [Emit "summarize" "Summarizing...";
                CacheGet (summarize_key "abc");
                Emit "summarize" "Summarization complete (cached)."]).
Proof.
  cbv zeta. repeat (split; [reflexivity|]).
  exact (proj1 (proj2 (cache_hit_needs_no_upstream offline
                         (VObj [("text", VStr "abc")])
                         (Cache.set 0 "summarize:abc" (VStr "short") Cache.empty)
                         (VStr "short") eq_refl))
           (VStr "abc") "abc" eq_refl eq_refl eq_refl eq_refl).
Defined.

Lemma destructure_Normal (b : value) (k src : string) (v : value) :
  destructure b k src = Normal v -> get_field b k = Normal v.
Proof. destruct b; cbn; intros H; try discriminate; exact H. Qed.

Lemma cache_keys_app (t u : list effect) :
  cache_keys (t ++ u) = (cache_keys t ++ cache_keys u)%list.
Proof.
  induction t as [|e t IH]; [reflexivity|].
  destruct e; cbn; now rewrite ?IH.
Qed.

Lemma handler_cache_keys (E : env) (r : route) (b : value) (c : Cache.store) :
  Forall (fun k => route_key r b = Normal k)
    (cache_keys (w_trace (snd (handler_of E r b (mkWorld c []))))).
Proof.
  destruct r; cbn [handler_of];
    [unfold translate_handler | unfold summarize_handler
    | unfold analyze_symptoms_handler];
    run_handler;
    repeat match goal with
           | H : destructure _ _ _ = Normal ?a |- _ =>
               apply destructure_Normal, field_get in H; subst a
           end;
    unfold route_key, translate_key, summarize_key, symptoms_key;
    repeat match goal with
           | H : to_string _ = _ |- _ => rewrite H; clear H
           end;
    cbn [snd w_trace];
    try match goal with
        | H : retryRequest_default _ _ _ _ _ = _ |- _ =>
            apply retryRequest_default_world in H;
            destruct H as (t & Hw & _ & Hk & _); cbn [w_cache w_trace] in Hw;
            injection Hw as -> ->
        end;
    cbn; rewrite ?cache_keys_app, ?Hk; cbn; repeat constructor.
Qed.

(** X7.  A request reads and writes the cache under one key only, the
    key its route makes of the strings the texts of the body convert to
    (when one of them does not convert, the cache is not touched), and
    the keys of two different routes never coincide: what one route has
    cached is never served by another. *)
Theorem cache_is_keyed_by_route
    (E : env) (r : route) (b : value) (c : Cache.store) :
  Forall (fun k => route_key r b = Normal k)
    (cache_keys (w_trace (snd (handler_of E r b (mkWorld c []))))) /\
  forall (r' : route) (b' : value) (k k' : string),
    r <> r' ->
    route_key r b = Normal k -> route_key r' b' = Normal k' -> k <> k'.
Proof.
  split; [apply handler_cache_keys|].
  intros r' b' k k' Hne Hk Hk'. destruct r, r'; try contradiction;
    unfold route_key, translate_key, summarize_key, symptoms_key in Hk, Hk';
    repeat match goal with
           | H : context [match to_string ?v with _ => _ end] |- _ =>
               destruct (to_string v); try discriminate H
           end;
    injection Hk as <-; injection Hk' as <-; discriminate.
Qed.

Lemma cache_is_keyed_by_route_witness :
  Summarize <> AnalyzeSymptoms /\
  route_key Summarize (VObj [("text", VStr "abc")]) = Normal "summarize:abc" /\
  route_key AnalyzeSymptoms (VObj [("symptoms", VStr "abc")])
  = Normal "symptoms:abc" /\
  "summarize:abc" <> "symptoms:abc".
Proof.
  assert (H : Summarize <> AnalyzeSymptoms) by discriminate.
  split; [exact H|]. split; [reflexivity|]. split; [reflexivity|].
  exact (proj2 (cache_is_keyed_by_route offline Summarize
                  (VObj [("text", VStr "abc")]) Cache.empty)
           AnalyzeSymptoms (VObj [("symptoms", VStr "abc")])
           "summarize:abc" "symptoms:abc" H eq_refl eq_refl).
Defined.

Lemma string_app_assoc (x y z : string) : (x ++ y) ++ z = x ++ (y ++ z).
Proof.
  induction x as [|a x IH]; [reflexivity|].
  change (String a ((x ++ y) ++ z) = String a (x ++ (y ++ z))).
  now rewrite IH.
Qed.

(** X8.  Within [/translate] the key is the text and the target joined
    by a colon, so a colon in either lets two different requests share a
    key: the request (text [x], target [y:z]) is answered from what is
    cached for (text [x:y], target [z]), without any detection. *)
Theorem translate_key_collision
    (E : env) (c : Cache.store) (x y z : string) (v : value) :
  x <> "" ->
  truthy v = true ->
  Cache.get (Date_now E 1) (translate_key (x ++ ":" ++ y) z) c = Some v ->
  translate_key x (y ++ ":" ++ z) = translate_key (x ++ ":" ++ y) z /\
  translate_handler E
    (VObj [("text", VStr x); ("targetLanguage", VStr (y ++ ":" ++ z))])
    (mkWorld c [])
  = (Normal (mkHttp 200 v),
     mkWorld c [Emit "translate" "Translating...";
                CacheGet (translate_key (x ++ ":" ++ y) z);
                Emit "translate" "Translation complete (cached)."]).
Proof.
  intros Hx Hv Hhit.
  assert (Hkey : translate_key x (y ++ ":" ++ z)
                 = translate_key (x ++ ":" ++ y) z).
  { unfold translate_key. now rewrite (string_app_assoc x). }
  split; [exact Hkey|]. rewrite <- Hkey in *.
  apply (translate_hit E _ c (VStr x) (VStr (y ++ ":" ++ z)) v
           x (y ++ ":" ++ z)); auto.
  - cbn. destruct (String.eqb_spec x ""); [contradiction|reflexivity].
  - cbn. now destruct y.
Qed.

Lemma translate_key_collision_witness :
  let c := Cache.set 0 "translate:a:b:c" (VStr "cached") Cache.empty in
  "a" <> "" /\
  truthy (VStr "cached") = true /\
  Cache.get (Date_now offline 1) (translate_key ("a" ++ ":" ++ "b") "c") c
  = Some (VStr "cached") /\
  translate_handler offline
    (VObj [("text", VStr "a"); ("targetLanguage", VStr ("b" ++ ":" ++ "c"))])
    (mkWorld c [])
  = (Normal (mkHttp 200 (VStr "cached")),
     mkWorld c [Emit "translate" "Translating...";
                CacheGet (translate_key ("a" ++ ":" ++ "b") "c");
                Emit "translate" "Translation complete (cached)."]).
Proof.
  cbv zeta.
  assert (Hx : "a" <> "") by discriminate.
  split; [exact Hx|]. split; [reflexivity|]. split; [reflexivity|].
  exact (proj2 (translate_key_collision offline
                  (Cache.set 0 "translate:a:b:c" (VStr "cached") Cache.empty)
                  "a" "b" "c" (VStr "cached") Hx eq_refl eq_refl)).
Defined.

Lemma retryRequest_default_first_ok E url body hdrs (w : world) (resp : response) :
  net E (length (posts (w_trace w))) url body hdrs = Responded resp ->
  200 <= status resp < 300 ->
  retryRequest_default E url body hdrs w = (Normal resp, posted w url body hdrs).
Proof.
  intros Hnet Hok. unfold retryRequest_default.
  rewrite retryRequest_unfold, Hnet. unfold axios_settle.
  replace ((200 <=? status resp) && (status resp <? 300)) with true
    by (symmetry; apply andb_true_iff; split;
        [apply Z.leb_le | apply Z.ltb_lt]; lia).
  reflexivity.
Qed.

Lemma retryRequest_default_first_fails E url body hdrs (w : world) (e : error) :
  axios_settle (net E (length (posts (w_trace w))) url body hdrs) = Throw e ->
  is_429 e = false ->
  retryRequest_default E url body hdrs w = (Throw e, posted w url body hdrs).
Proof.
  intros H Hc. unfold retryRequest_default.
  rewrite retryRequest_unfold, H. unfold is_429 in Hc.
  destruct (error_response e) as [resp|]; [|reflexivity]. now rewrite Hc.
Qed.

Lemma summarize_miss_ok (E : env) (b : value) (c : Cache.store)
    (text summary : value) (text_str : string) (resp : response) :
  get_field b "text" = Normal text ->
  truthy text = true ->
  to_string text = Normal text_str ->
  truthy (default VUndefined
            (Cache.get (Date_now E 1) (summarize_key text_str) c)) = false ->
  env_falsy (env_AZURE_AI_API_KEY E) = false ->
  net E 0 (chatUrl E) (summarize_body text_str) (chatHeaders E) = Responded resp ->
  200 <= status resp < 300 ->
  chat_content resp = Normal summary ->
  summarize_handler E b (mkWorld c [])
  = (Normal (mkHttp 200 (VObj [("summary", summary)])),
     mkWorld (Cache.set (Date_now E 3) (summarize_key text_str) summary c)
       [Emit "summarize" "Summarizing...";
        CacheGet (summarize_key text_str);
        Post (chatUrl E) (summarize_body text_str) (chatHeaders E);
        CacheSet (summarize_key text_str) summary;
        Emit "summarize" "Summarization complete."]).
Proof.
  intros Ht Htt Hs Hmiss Hk Hnet Hok Hc.
  unfold summarize_handler, AZURE_AI_API_KEY. unfold_monad.
  rewrite (destructure_get_field b "text" _ _ _ Ht), Ht, Htt.
  cbn [negb app length]. rewrite Hs.
  fold (summarize_key text_str). rewrite Hmiss, Hk.
  fold (summarize_body text_str).
  erewrite retryRequest_default_first_ok; [|exact Hnet|exact Hok].
  unfold posted. cbn [w_cache w_trace app]. now rewrite Hc.
Qed.

Lemma symptoms_miss_ok (E : env) (b : value) (c : Cache.store)
    (symptoms analysis : value) (symptoms_str : string) (resp : response) :
  get_field b "symptoms" = Normal symptoms ->
  truthy symptoms = true ->
  to_string symptoms = Normal symptoms_str ->
  truthy (default VUndefined
            (Cache.get (Date_now E 1) (symptoms_key symptoms_str) c)) = false ->
  net E 0 (chatUrl E) (symptoms_body symptoms_str) (chatHeaders E) = Responded resp ->
  200 <= status resp < 300 ->
  chat_content resp = Normal analysis ->
  analyze_symptoms_handler E b (mkWorld c [])
  = (Normal (mkHttp 200 (VObj [("analysis", analysis)])),
     mkWorld (Cache.set (Date_now E 3) (symptoms_key symptoms_str) analysis c)
       [Emit "symptoms" "Analyzing symptoms...";
        CacheGet (symptoms_key symptoms_str);
        Post (chatUrl E) (symptoms_body symptoms_str) (chatHeaders E);
        CacheSet (symptoms_key symptoms_str) analysis;
        Emit "symptoms" "Analysis complete."]).
Proof.
  intros Ht Htt Hs Hmiss Hnet Hok Hc.
  unfold analyze_symptoms_handler. unfold_monad.
  rewrite (destructure_get_field b "symptoms" _ _ _ Ht), Ht, Htt.
  cbn [negb app length]. rewrite Hs.
  fold (symptoms_key symptoms_str). rewrite Hmiss.
  fold (symptoms_body symptoms_str).
  erewrite retryRequest_default_first_ok; [|exact Hnet|exact Hok].
  unfold posted. cbn [w_cache w_trace app]. now rewrite Hc.
Qed.

(** The content of a well-formed chat answer is a string, and what is
    read out of it is that string trimmed. *)
Lemma chat_content_trims (r : response) (choices c0 m : value) (s : string) :
  get_field (Js.data r) "choices" = Normal choices ->
  get_index0 choices = Normal c0 ->
  get_field c0 "message" = Normal m ->
  get_field m "content" = Normal (VStr s) ->
  chat_content r = Normal (VStr (trim s)).
Proof. intros H1 H2 H3 H4. unfold chat_content. now rewrite H1, H2, H3, H4. Qed.

(** X9.  A miss that the provider answers at once, for a text that
    converts to a string.  [/summarize] (with the key set) and
    [/analyze-symptoms] make a single POST to the chat endpoint, with the
    [api-key] header taken from the environment, answer 200 with what was
    read out of the provider's answer (the content of the first choice,
    trimmed), and store that same value under the request's key. *)
Theorem chat_miss_is_answered_and_cached
    (E : env) (b : value) (c : Cache.store) (resp : response) (out : value) :
  200 <= status resp < 300 ->
  chat_content resp = Normal out ->
  (forall text text_str,
     get_field b "text" = Normal text ->
     truthy text = true ->
     to_string text = Normal text_str ->
     truthy (default VUndefined
               (Cache.get (Date_now E 1) (summarize_key text_str) c)) = false ->
     env_falsy (env_AZURE_AI_API_KEY E) = false ->
     net E 0 (chatUrl E) (summarize_body text_str) (chatHeaders E) = Responded resp ->
     summarize_handler E b (mkWorld c [])
     = (Normal (mkHttp 200 (VObj [("summary", out)])),
        mkWorld (Cache.set (Date_now E 3) (summarize_key text_str) out c)
          [Emit "summarize" "Summarizing...";
           CacheGet (summarize_key text_str);
           Post (chatUrl E) (summarize_body text_str)
             [("Content-Type", Some "application/json");
              ("api-key", env_AZURE_AI_API_KEY E)];
           CacheSet (summarize_key text_str) out;
           Emit "summarize" "Summarization complete."])) /\
  (forall symptoms symptoms_str,
     get_field b "symptoms" = Normal symptoms ->
     truthy symptoms = true ->
     to_string symptoms = Normal symptoms_str ->
     truthy (default VUndefined
               (Cache.get (Date_now E 1) (symptoms_key symptoms_str) c)) = false ->
     net E 0 (chatUrl E) (symptoms_body symptoms_str) (chatHeaders E) = Responded resp ->
     analyze_symptoms_handler E b (mkWorld c [])
     = (Normal (mkHttp 200 (VObj [("analysis", out)])),
        mkWorld (Cache.set (Date_now E 3) (symptoms_key symptoms_str) out c)
          [Emit "symptoms" "Analyzing symptoms...";
           CacheGet (symptoms_key symptoms_str);
           Post (chatUrl E) (symptoms_body symptoms_str)
             [("Content-Type", Some "application/json");
              ("api-key", env_AZURE_AI_API_KEY E)];
           CacheSet (symptoms_key symptoms_str) out;
           Emit "symptoms" "Analysis complete."])).
Proof.
  intros Hok Hc. split.
  - intros text text_str Ht Htt Hs Hmiss Hk Hnet.
    now apply (summarize_miss_ok E b c text out text_str resp).
  - intros symptoms symptoms_str Ht Htt Hs Hmiss Hnet.
    now apply (symptoms_miss_ok E b c symptoms out symptoms_str resp).
Qed.

Lemma chat_miss_is_answered_and_cached_witness :
  let E := scripted (fun _ => Responded (chat_ok " Rest and fluids. ")) in
  let b := VObj [("symptoms", VStr "fever")] in
  200 <= status (chat_ok " Rest and fluids. ") < 300 /\
  chat_content (chat_ok " Rest and fluids. ") = Normal (VStr "Rest and fluids.") /\
  get_field b "symptoms" = Normal (VStr "fever") /\
  truthy (VStr "fever") = true /\
  to_string (VStr "fever") = Normal "fever" /\
  truthy (default VUndefined
            (Cache.get (Date_now E 1) (symptoms_key "fever") Cache.empty))
  = false /\
  analyze_symptoms_handler E b (mkWorld Cache.empty [])
  = (Normal (mkHttp 200 (VObj [("analysis", VStr "Rest and fluids.")])),
     mkWorld
       (Cache.set (Date_now E 3) (symptoms_key "fever")
          (VStr "Rest and fluids.") Cache.empty)
       [Emit "symptoms" "Analyzing symptoms...";
        CacheGet (symptoms_key "fever");
        Post (chatUrl E) (symptoms_body "fever")
          [("Content-Type", Some "application/json");
           ("api-key", env_AZURE_AI_API_KEY E)];
        CacheSet (symptoms_key "fever") (VStr "Rest and fluids.");
        Emit "symptoms" "Analysis complete."]).
Proof.
  cbv zeta.
  assert (Hok : 200 <= status (chat_ok " Rest and fluids. ") < 300) by (cbn; lia).
  split; [exact Hok|]. repeat (split; [reflexivity|]).
  exact (proj2 (chat_miss_is_answered_and_cached
                  (scripted (fun _ => Responded (chat_ok " Rest and fluids. ")))
                  (VObj [("symptoms", VStr "fever")]) Cache.empty
                  (chat_ok " Rest and fluids. ") (VStr "Rest and fluids.")
                  Hok eq_refl)
           (VStr "fever") "fever" eq_refl eq_refl eq_refl eq_refl eq_refl).
Defined.

(** X10.  An upstream failure on a miss, for texts that convert to
    strings.  The detection call of
    [/translate] is made with [axios.post] directly: whatever makes it
    reject, a 429 included, is reported at once, and the translation
    endpoint is not called.  [/summarize] and [/analyze-symptoms] report
    at once a rejection that is not a 429.  In each case the answer is 500
    with the route's error text and the message of the error as
    [details], after a single POST, and nothing is cached. *)
Theorem upstream_failure_is_reported
    (E : env) (b : value) (c : Cache.store) (e : error) :
  (forall text target text_str target_str,
     get_field b "text" = Normal text ->
     get_field b "targetLanguage" = Normal target ->
     truthy text = true -> truthy target = true ->
     to_string text = Normal text_str ->
     to_string target = Normal target_str ->
     truthy (default VUndefined
               (Cache.get (Date_now E 1) (translate_key text_str target_str) c)) = false ->
     axios_settle (net E 0 (detectUrl E) (DetectBody text) []) = Throw e ->
     translate_handler E b (mkWorld c [])
     = (Normal (mkHttp 500
                  (VObj [("error", VStr "Translation failed");
                         ("details", VStr (error_message e))])),
        mkWorld c [Emit "translate" "Translating...";
                   CacheGet (translate_key text_str target_str);
                   Post (detectUrl E) (DetectBody text) [];
                   Emit "translate" "Translation failed."])) /\
  (forall text text_str,
     get_field b "text" = Normal text ->
     truthy text = true ->
     to_string text = Normal text_str ->
     truthy (default VUndefined
               (Cache.get (Date_now E 1) (summarize_key text_str) c)) = false ->
     env_falsy (env_AZURE_AI_API_KEY E) = false ->
     axios_settle (net E 0 (chatUrl E) (summarize_body text_str) (chatHeaders E))
     = Throw e ->
     is_429 e = false ->
     summarize_handler E b (mkWorld c [])
     = (Normal (mkHttp 500
                  (VObj [("error", VStr "Summarization failed");
                         ("details", VStr (error_message e))])),
        mkWorld c [Emit "summarize" "Summarizing...";
                   CacheGet (summarize_key text_str);
                   Post (chatUrl E) (summarize_body text_str) (chatHeaders E);
                   Emit "summarize" "Summarization failed."])) /\
  (forall symptoms symptoms_str,
     get_field b "symptoms" = Normal symptoms ->
     truthy symptoms = true ->
     to_string symptoms = Normal symptoms_str ->
     truthy (default VUndefined
               (Cache.get (Date_now E 1) (symptoms_key symptoms_str) c)) = false ->
     axios_settle (net E 0 (chatUrl E) (symptoms_body symptoms_str) (chatHeaders E))
     = Throw e ->
     is_429 e = false ->
     analyze_symptoms_handler E b (mkWorld c [])
     = (Normal (mkHttp 500
                  (VObj [("error", VStr "Symptom analysis failed");
                         ("details", VStr (error_message e))])),
        mkWorld c [Emit "symptoms" "Analyzing symptoms...";
                   CacheGet (symptoms_key symptoms_str);
                   Post (chatUrl E) (symptoms_body symptoms_str) (chatHeaders E);
                   Emit "symptoms" "Analysis failed."])).
Proof.
  repeat split.
  - intros text target text_str target_str Ht Htg Htt Htgt Hs Hst Hmiss Hnet.
    unfold translate_handler. unfold_monad.
    rewrite !(destructure_get_field b "text" _ _ _ Ht), Ht, Htg, Htt, Htgt.
    cbn [negb orb app length]. rewrite Hs, Hst.
    fold (translate_key text_str target_str).
    rewrite Hmiss. cbn [posts List.filter is_post length]. now rewrite Hnet.
  - intros text text_str Ht Htt Hs Hmiss Hk Hnet H429.
    unfold summarize_handler, AZURE_AI_API_KEY. unfold_monad.
    rewrite (destructure_get_field b "text" _ _ _ Ht), Ht, Htt.
    cbn [negb app length]. rewrite Hs.
    fold (summarize_key text_str). rewrite Hmiss, Hk.
    fold (summarize_body text_str).
    erewrite retryRequest_default_first_fails; [reflexivity|exact Hnet|exact H429].
  - intros symptoms symptoms_str Ht Htt Hs Hmiss Hnet H429.
    unfold analyze_symptoms_handler. unfold_monad.
    rewrite (destructure_get_field b "symptoms" _ _ _ Ht), Ht, Htt.
    cbn [negb app length]. rewrite Hs.
    fold (symptoms_key symptoms_str). rewrite Hmiss.
    fold (symptoms_body symptoms_str).
    erewrite retryRequest_default_first_fails; [reflexivity|exact Hnet|exact H429].
Qed.

Lemma upstream_failure_is_reported_witness :
  let E := scripted (fun _ => Responded (mkResponse 429 ∅ VNull)) in
  let e := AxiosError "Request failed with status code 429"
             (Some (mkResponse 429 ∅ VNull)) in
  get_field hola_es "text" = Normal (VStr "Hola") /\
  get_field hola_es "targetLanguage" = Normal (VStr "es") /\
  to_string (VStr "Hola") = Normal "Hola" /\
  to_string (VStr "es") = Normal "es" /\
  axios_settle (net E 0 (detectUrl E) (DetectBody (VStr "Hola")) []) = Throw e /\
  translate_handler E hola_es (mkWorld Cache.empty [])
  = (Normal (mkHttp 500
               (VObj [("error", VStr "Translation failed");
                      ("details", VStr "Request failed with status code 429")])),
     mkWorld Cache.empty
       [Emit "translate" "Translating...";
        CacheGet (translate_key "Hola" "es");
        Post (detectUrl E) (DetectBody (VStr "Hola")) [];
        Emit "translate" "Translation failed."]).
Proof.
  cbv zeta. repeat (split; [reflexivity|]).
  exact (proj1 (upstream_failure_is_reported
                  (scripted (fun _ => Responded (mkResponse 429 ∅ VNull)))
                  hola_es Cache.empty
                  (AxiosError "Request failed with status code 429"
                     (Some (mkResponse 429 ∅ VNull))))
           (VStr "Hola") (VStr "es") "Hola" "es"
           eq_refl eq_refl eq_refl eq_refl eq_refl eq_refl eq_refl eq_refl).
Defined.

(** X11.  A miss of [/translate] (text and target converting to strings)
    whose detected language differs from the target.  The translation
    endpoint is called once, after the detection,
    with the detected language as [source]; the answer is 200 with
    [{detectedLanguage, translatedText}] (and no [message]), and that
    object is stored under the request's key. *)
Theorem translate_miss_is_translated
    (E : env) (b : value) (c : Cache.store)
    (text target lang translated : value) (text_str target_str : string)
    (r1 r2 : response) :
  get_field b "text" = Normal text ->
  get_field b "targetLanguage" = Normal target ->
  truthy text = true ->
  truthy target = true ->
  to_string text = Normal text_str ->
  to_string target = Normal target_str ->
  truthy (default VUndefined
            (Cache.get (Date_now E 1) (translate_key text_str target_str) c)) = false ->
  net E 0 (detectUrl E) (DetectBody text) [] = Responded r1 ->
  200 <= status r1 < 300 ->
  detected_language r1 = Normal lang ->
  strict_eq lang target = false ->
  net E 1 (translateUrl E) (TranslateBody text lang target "text") []
  = Responded r2 ->
  200 <= status r2 < 300 ->
  translated_text r2 = Normal translated ->
  let result := VObj [("detectedLanguage", lang);
                      ("translatedText", translated)] in
  translate_handler E b (mkWorld c [])
  = (Normal (mkHttp 200 result),
     mkWorld (Cache.set (Date_now E 4) (translate_key text_str target_str) result c)
       [Emit "translate" "Translating...";
        CacheGet (translate_key text_str target_str);
        Post (detectUrl E) (DetectBody text) [];
        Post (translateUrl E) (TranslateBody text lang target "text") [];
        CacheSet (translate_key text_str target_str) result;
        Emit "translate" "Translation complete."]).
Proof.
  intros Ht Htg Htt Htgt Hs Hst Hmiss Hn1 Hok1 Hlang Hneq Hn2 Hok2 Htr.
  cbv zeta. unfold translate_handler. unfold_monad.
  rewrite !(destructure_get_field b "text" _ _ _ Ht), Ht, Htg, Htt, Htgt.
  cbn [negb orb app length]. rewrite Hs, Hst.
  fold (translate_key text_str target_str). rewrite Hmiss.
  cbn [posts List.filter is_post length]. rewrite Hn1. unfold axios_settle.
  replace ((200 <=? status r1) && (status r1 <? 300)) with true
    by (symmetry; apply andb_true_iff; split;
        [apply Z.leb_le | apply Z.ltb_lt]; lia).
  rewrite Hlang, Hneq. cbn [app posts List.filter is_post length]. rewrite Hn2.
  replace ((200 <=? status r2) && (status r2 <? 300)) with true
    by (symmetry; apply andb_true_iff; split;
        [apply Z.leb_le | apply Z.ltb_lt]; lia).
  now rewrite Htr.
Qed.

Lemma translate_miss_is_translated_witness :
  let E := detects_then_translates in
  let b := VObj [("text", VStr "Hola"); ("targetLanguage", VStr "en")] in
  let result := VObj [("detectedLanguage", VStr "es");
                      ("translatedText", VStr "Hello")] in
  200 <= status detection_es < 300 /\
  200 <= status translation_hello < 300 /\
  to_string (VStr "Hola") = Normal "Hola" /\
  to_string (VStr "en") = Normal "en" /\
  strict_eq (VStr "es") (VStr "en") = false /\
  translate_handler E b (mkWorld Cache.empty [])
  = (Normal (mkHttp 200 result),
     mkWorld (Cache.set (Date_now E 4)
                (translate_key "Hola" "en") result Cache.empty)
       [Emit "translate" "Translating...";
        CacheGet (translate_key "Hola" "en");
        Post (detectUrl E) (DetectBody (VStr "Hola")) [];
        Post (translateUrl E)
          (TranslateBody (VStr "Hola") (VStr "es") (VStr "en") "text") [];
        CacheSet (translate_key "Hola" "en") result;
        Emit "translate" "Translation complete."]).
Proof.
  cbv zeta.
  assert (H1 : 200 <= status detection_es < 300) by (cbn; lia).
  assert (H2 : 200 <= status translation_hello < 300) by (cbn; lia).
  split; [exact H1|]. split; [exact H2|]. repeat (split; [reflexivity|]).
  exact (translate_miss_is_translated detects_then_translates
           (VObj [("text", VStr "Hola"); ("targetLanguage", VStr "en")])
           Cache.empty (VStr "Hola") (VStr "en") (VStr "es") (VStr "Hello")
           "Hola" "en" detection_es translation_hello
           eq_refl eq_refl eq_refl eq_refl eq_refl eq_refl eq_refl eq_refl
           H1 eq_refl eq_refl eq_refl H2 eq_refl).
Defined.

(** X12.  A cached value that is falsy (the empty summary that a blank
    answer of the provider is trimmed to, for one) is stored and found
    again, yet the handlers treat it as a miss: with such an entry under
    the key of a text that converts to a string, [/summarize] (the key
    being set) and [/analyze-symptoms] call the provider again. *)
Theorem falsy_cached_value_is_recomputed
    (E : env) (b : value) (c : Cache.store) (v : value) :
  truthy v = false ->
  (forall text text_str,
     get_field b "text" = Normal text ->
     truthy text = true ->
     to_string text = Normal text_str ->
     Cache.get (Date_now E 1) (summarize_key text_str) c = Some v ->
     env_falsy (env_AZURE_AI_API_KEY E) = false ->
     (1 <= length (posts (w_trace (snd (summarize_handler E b (mkWorld c []))))))%nat) /\
  (forall symptoms symptoms_str,
     get_field b "symptoms" = Normal symptoms ->
     truthy symptoms = true ->
     to_string symptoms = Normal symptoms_str ->
     Cache.get (Date_now E 1) (symptoms_key symptoms_str) c = Some v ->
     (1 <= length (posts (w_trace (snd (analyze_symptoms_handler E b
                                           (mkWorld c []))))))%nat).
Proof.
  intros Hv. split.
  - intros text text_str Ht Htt Hs Hhit Hk.
    unfold summarize_handler, AZURE_AI_API_KEY. unfold_monad.
    rewrite (destructure_get_field b "text" _ _ _ Ht), Ht, Htt.
    cbn [negb app length]. rewrite Hs. fold (summarize_key text_str).
    rewrite Hhit. cbn [from_option id]. rewrite Hv, Hk.
    destruct (retryRequest_default _ _ _ _ _) as [res w1] eqn:Hrun.
    apply retryRequest_default_world in Hrun.
    destruct Hrun as (t & -> & Hp & _).
    destruct res as [resp|e]; [destruct (chat_content resp)|];
      cbn [snd w_trace w_cache]; rewrite !posts_app, !length_app; lia.
  - intros symptoms symptoms_str Ht Htt Hs Hhit.
    unfold analyze_symptoms_handler. unfold_monad.
    rewrite (destructure_get_field b "symptoms" _ _ _ Ht), Ht, Htt.
    cbn [negb app length]. rewrite Hs. fold (symptoms_key symptoms_str).
    rewrite Hhit. cbn [from_option id]. rewrite Hv.
    destruct (retryRequest_default _ _ _ _ _) as [res w1] eqn:Hrun.
    apply retryRequest_default_world in Hrun.
    destruct Hrun as (t & -> & Hp & _).
    destruct res as [resp|e]; [destruct (chat_content resp)|];
      cbn [snd w_trace w_cache]; rewrite !posts_app, !length_app; lia.
Qed.

Lemma falsy_cached_value_is_recomputed_witness :
  truthy (VStr "") = false /\
  get_field fever "symptoms" = Normal (VStr "fever") /\
  truthy (VStr "fever") = true /\
  to_string (VStr "fever") = Normal "fever" /\
  Cache.get (Date_now blank_answers 1) (symptoms_key "fever")
    cache_after_blank_answer = Some (VStr "") /\
  (1 <= length (posts (w_trace (snd (analyze_symptoms_handler blank_answers fever
                                        (mkWorld cache_after_blank_answer []))))))%nat.
Proof.
  assert (Hhit :
    Cache.get (Date_now blank_answers 1) (symptoms_key "fever")
      cache_after_blank_answer = Some (VStr "")) by (vm_compute; reflexivity).
  repeat (split; [first [reflexivity | exact Hhit]|]).
  exact (proj2 (falsy_cached_value_is_recomputed blank_answers fever
                  cache_after_blank_answer (VStr "") eq_refl)
           (VStr "fever") "fever" eq_refl eq_refl eq_refl Hhit).
Defined.




(* ================================================================== *)
(** ** The script [api.js] *)
(* ================================================================== *)

Ltac unfold_script :=
  cbv beta iota zeta delta
    [ApiTest.bind ApiTest.try_catch ApiTest.lift ApiTest.ret ApiTest.emit
     ApiTest.console_log ApiTest.console_error ApiTest.axios_post fst snd].

Lemma http_posts_app (t u : list ApiTest.out) :
  ApiTest.http_posts (t ++ u)
  = (ApiTest.http_posts t ++ ApiTest.http_posts u)%list.
Proof. unfold ApiTest.http_posts. apply List.filter_app. Qed.

(** An answer that [server.js] can read a detected language out of has a
    truthy [data.data]. *)
Lemma detected_language_has_data (r : response) (lang : value) :
  detected_language r = Normal lang ->
  exists d, ApiTest.js_and (Js.data r) (get_field (Js.data r) "data") = Normal d
            /\ truthy d = true.
Proof.
  unfold detected_language, ApiTest.js_and.
  destruct (Js.data r) as [| |x|n|x|xs|fs]; cbn; try discriminate.
  destruct (lookup_field "data" fs) as [| |x|n|x|xs|gs]; cbn; try discriminate.
  intros _. eauto.
Qed.

Lemma translated_text_has_data (r : response) (txt : value) :
  translated_text r = Normal txt ->
  exists d, ApiTest.js_and (Js.data r) (get_field (Js.data r) "data") = Normal d
            /\ truthy d = true.
Proof.
  unfold translated_text, ApiTest.js_and.
  destruct (Js.data r) as [| |x|n|x|xs|fs]; cbn; try discriminate.
  destruct (lookup_field "data" fs) as [| |x|n|x|xs|gs]; cbn; try discriminate.
  intros _. eauto.
Qed.

(** An answer that [server.js] can read a chat content out of has a truthy
    [data.choices[0].message]. *)
Lemma chat_content_has_message (r : response) (c : value) :
  chat_content r = Normal c ->
  exists m, ApiTest.has_message r = Normal m /\ truthy m = true.
Proof.
  unfold chat_content, ApiTest.has_message, ApiTest.js_and.
  destruct (Js.data r) as [| |x|n|x|xs|fs]; cbn; try discriminate.
  destruct (lookup_field "choices" fs) as [| |x|n|x|xs|gs]; cbn;
    try discriminate.
  - destruct x; discriminate.
  - destruct (hd VUndefined xs) as [| |x|n|x|ys|hs]; cbn; try discriminate.
    destruct (lookup_field "message" hs) as [| |x|n|x|ys|ks]; cbn;
      try discriminate.
    intros _. eauto.
  - destruct (lookup_field "0" gs) as [| |x|n|x|ys|hs]; cbn; try discriminate.
    destruct (lookup_field "message" hs) as [| |x|n|x|ys|ks]; cbn;
      try discriminate.
    intros _. eauto.
Qed.

Lemma axios_settle_ok (rep : reply) (r : response) :
  axios_settle rep = Normal r -> 200 <= status r < 300.
Proof. intros H. now destruct (axios_settle_Normal _ _ H). Qed.


Lemma http_posts_log (t : list ApiTest.out) (o : ApiTest.out) :
  ApiTest.is_http o = false ->
  ApiTest.http_posts (t ++ [o]) = ApiTest.http_posts t.
Proof.
  intros H. rewrite http_posts_app. cbn. rewrite H. apply app_nil_r.
Qed.

Lemma http_posts_post (t : list ApiTest.out) u b h :
  ApiTest.http_posts (t ++ [ApiTest.HttpPost u b h])
  = (ApiTest.http_posts t ++ [ApiTest.HttpPost u b h])%list.
Proof. now rewrite http_posts_app. Qed.

Ltac count_posts :=
  repeat first [rewrite http_posts_post
               | rewrite http_posts_log by reflexivity];
  rewrite ?length_app; cbn [length]; rewrite ?Nat.add_1_r.

Lemma testGoogle_run (E : env) (t : list ApiTest.out) :
  let n := length (ApiTest.http_posts t) in
  let detectPost :=
    ApiTest.HttpPost (detectUrl E) (DetectBody (VStr "Hello world")) [] in
  let translatePost :=
    ApiTest.HttpPost (translateUrl E)
      (TranslateBody (VStr "Hello world") (VStr "en") (VStr "es") "text") [] in
  let detect :=
    axios_settle (net E n (detectUrl E) (DetectBody (VStr "Hello world")) []) in
  let translate :=
    axios_settle (net E (S n) (translateUrl E)
                    (TranslateBody (VStr "Hello world") (VStr "en") (VStr "es")
                       "text") []) in
  exists (b : bool) (t' : list ApiTest.out),
    ApiTest.testGoogleTranslationAPI E t = (Normal b, (t ++ t')%list) /\
    (b = true <->
     env_falsy (env_GOOGLE_TRANSLATION_API_KEY E) = false /\
     exists r1 lang r2 txt,
       detect = Normal r1 /\ detected_language r1 = Normal lang /\
       translate = Normal r2 /\ translated_text r2 = Normal txt) /\
    ApiTest.http_posts t'
    = if env_falsy (env_GOOGLE_TRANSLATION_API_KEY E) then []
      else match detect with
           | Normal r1 =>
               match detected_language r1 with
               | Normal _ => [detectPost; translatePost]
               | Throw _ => [detectPost]
               end
           | Throw _ => [detectPost]
           end.
Proof.
  cbv zeta. unfold ApiTest.testGoogleTranslationAPI, GOOGLE_TRANSLATION_API_KEY.
  unfold_script.
  destruct (env_falsy (env_GOOGLE_TRANSLATION_API_KEY E)) eqn:Hk.
  { eexists false, _. split; [rewrite <- !app_assoc; reflexivity|].
    split; [|reflexivity]. split; [discriminate | intros [H _]; discriminate]. }
  count_posts.
  destruct (axios_settle (net E (length (ApiTest.http_posts t)) _ _ _))
    as [r1|e1] eqn:Hd.
  2:{ eexists false, _. split; [rewrite <- !app_assoc; reflexivity|].
      split; [|reflexivity].
      split; [discriminate | intros (_ & r1 & ? & ? & ? & H & _); discriminate]. }
  destruct (detected_language r1) as [lang|el] eqn:Hl.
  - destruct (detected_language_has_data _ _ Hl) as (d & -> & ->).
    unfold_script. count_posts.
    destruct (axios_settle (net E (S (length (ApiTest.http_posts t))) _ _ _))
      as [r2|e2] eqn:Ht.
    2:{ eexists false, _. split; [rewrite <- !app_assoc; reflexivity|].
        split; [|reflexivity].
        split; [discriminate
               | intros (_ & ? & ? & r2 & ? & _ & _ & H & _); discriminate]. }
    destruct (translated_text r2) as [txt|et] eqn:Htt.
    + destruct (translated_text_has_data _ _ Htt) as (d2 & -> & ->).
      unfold_script.
      eexists true, _. split; [rewrite <- !app_assoc; reflexivity|].
      split; [|reflexivity].
      split; [intros _; split; [reflexivity|]; now exists r1, lang, r2, txt
             | reflexivity].
    + destruct (ApiTest.js_and (Js.data r2) (get_field (Js.data r2) "data"))
        as [d2|e3]; [destruct (truthy d2)|]; unfold_script;
        (eexists false, _; split; [rewrite <- !app_assoc; reflexivity|];
         split; [|reflexivity];
         split; [discriminate
                | intros (_ & ? & ? & r2' & ? & _ & _ & H & H'); congruence]).
  - destruct (ApiTest.js_and (Js.data r1) (get_field (Js.data r1) "data"))
      as [d|e3]; [destruct (truthy d)|]; unfold_script;
      (eexists false, _; split; [rewrite <- !app_assoc; reflexivity|];
       split; [|reflexivity];
       split; [discriminate
              | intros (_ & r1' & ? & ? & ? & H & H' & _); congruence]).
Qed.

(** X14.  [testGoogleTranslationAPI] never throws.  It returns [true]
    exactly when the key is set, the detection and then the translation
    are answered 2xx, and both answers can be read the way the
    [/translate] handler of [server.js] reads them.  Without the key it
    makes no call; with it, it calls the detection, and the translation
    only after a detection it could read. *)
Theorem testGoogle_verdict (E : env) (t : list ApiTest.out) :
  let n := length (ApiTest.http_posts t) in
  let detectPost :=
    ApiTest.HttpPost (detectUrl E) (DetectBody (VStr "Hello world")) [] in
  let translatePost :=
    ApiTest.HttpPost (translateUrl E)
      (TranslateBody (VStr "Hello world") (VStr "en") (VStr "es") "text") [] in
  let detect :=
    axios_settle (net E n (detectUrl E) (DetectBody (VStr "Hello world")) []) in
  let translate :=
    axios_settle (net E (S n) (translateUrl E)
                    (TranslateBody (VStr "Hello world") (VStr "en") (VStr "es")
                       "text") []) in
  exists (b : bool) (t' : list ApiTest.out),
    ApiTest.testGoogleTranslationAPI E t = (Normal b, (t ++ t')%list) /\
    (b = true <->
     env_falsy (env_GOOGLE_TRANSLATION_API_KEY E) = false /\
     exists r1 lang r2 txt,
       detect = Normal r1 /\ detected_language r1 = Normal lang /\
       translate = Normal r2 /\ translated_text r2 = Normal txt) /\
    ApiTest.http_posts t'
    = if env_falsy (env_GOOGLE_TRANSLATION_API_KEY E) then []
      else match detect with
           | Normal r1 =>
               match detected_language r1 with
               | Normal _ => [detectPost; translatePost]
               | Throw _ => [detectPost]
               end
           | Throw _ => [detectPost]
           end.
Proof. apply testGoogle_run. Qed.

Lemma testAzure_run (E : env) (t : list ApiTest.out) :
  let n := length (ApiTest.http_posts t) in
  let call :=
    axios_settle (net E n (ApiTest.url E) ApiTest.requestBody (chatHeaders E)) in
  exists (b : bool) (t' : list ApiTest.out),
    ApiTest.testAzureOpenAIAPI E t = (Normal b, (t ++ t')%list) /\
    (b = true <->
     env_falsy (env_AZURE_AI_API_KEY E) = false /\
     exists r c, call = Normal r /\ chat_content r = Normal c) /\
    ApiTest.http_posts t'
    = if env_falsy (env_AZURE_AI_API_KEY E) then []
      else [ApiTest.HttpPost (ApiTest.url E) ApiTest.requestBody (chatHeaders E)].
Proof.
  cbv zeta. unfold ApiTest.testAzureOpenAIAPI, AZURE_AI_API_KEY.
  unfold_script.
  destruct (env_falsy (env_AZURE_AI_API_KEY E)) eqn:Hk.
  { eexists false, _. split; [rewrite <- !app_assoc; reflexivity|].
    split; [|reflexivity]. split; [discriminate | intros [H _]; discriminate]. }
  count_posts.
  destruct (axios_settle (net E (length (ApiTest.http_posts t)) _ _ _))
    as [r|e] eqn:Hc.
  2:{ eexists false, _. split; [rewrite <- !app_assoc; reflexivity|].
      split; [|reflexivity].
      split; [discriminate | intros (_ & r & ? & H & _); discriminate]. }
  destruct (chat_content r) as [c|ec] eqn:Hcc.
  - destruct (chat_content_has_message _ _ Hcc) as (m & -> & ->).
    unfold_script.
    eexists true, _. split; [rewrite <- !app_assoc; reflexivity|].
    split; [|reflexivity].
    split; [intros _; split; [reflexivity|]; now exists r, c | reflexivity].
  - destruct (ApiTest.has_message r) as [m|e3]; [destruct (truthy m)|];
      unfold_script;
      (eexists false, _; split; [rewrite <- !app_assoc; reflexivity|];
       split; [|reflexivity];
       split; [discriminate | intros (_ & r' & ? & H & H'); congruence]).
Qed.

(** X15.  [testAzureOpenAIAPI] never throws.  It returns [true] exactly
    when the key is set, the chat endpoint answers 2xx, and the content of
    the answer can be read the way [/summarize] and [/analyze-symptoms]
    read it.  It makes one call, and none without the key. *)
Theorem testAzure_verdict (E : env) (t : list ApiTest.out) :
  let n := length (ApiTest.http_posts t) in
  let call :=
    axios_settle (net E n (ApiTest.url E) ApiTest.requestBody (chatHeaders E)) in
  exists (b : bool) (t' : list ApiTest.out),
    ApiTest.testAzureOpenAIAPI E t = (Normal b, (t ++ t')%list) /\
    (b = true <->
     env_falsy (env_AZURE_AI_API_KEY E) = false /\
     exists r c, call = Normal r /\ chat_content r = Normal c) /\
    ApiTest.http_posts t'
    = if env_falsy (env_AZURE_AI_API_KEY E) then []
      else [ApiTest.HttpPost (ApiTest.url E) ApiTest.requestBody (chatHeaders E)].
Proof. apply testAzure_run. Qed.

Lemma ends_with_slash_snoc (base : string) :
  ApiTest.ends_with_slash (base ++ "/") = true.
Proof.
  induction base as [|c base IH]; [reflexivity|].
  change (String c base ++ "/") with (String c (base ++ "/")).
  cbn [ApiTest.ends_with_slash]. destruct (base ++ "/") eqn:Hb; [|exact IH].
  destruct base; discriminate.
Qed.

Lemma slice_snoc (base : string) :
  ApiTest.slice_0_minus_1 (base ++ "/") = base.
Proof.
  induction base as [|c base IH]; [reflexivity|].
  change (String c base ++ "/") with (String c (base ++ "/")).
  cbn [ApiTest.slice_0_minus_1]. destruct (base ++ "/") eqn:Hb.
  - destruct base; discriminate.
  - now rewrite IH.
Qed.

(** X16.  The script and the server build the chat URL differently.  The
    script drops one trailing slash of the endpoint before it appends the
    path; [server.js] appends the path to the endpoint as it is.  With an
    endpoint that ends in a slash (the built-in default does) the server
    posts to a URL with a double slash before [openai], the script to the
    URL with a single one; with an endpoint that does not end in a slash
    the two URLs are the same. *)
Theorem script_url_drops_trailing_slash (E : env) (base : string) :
  (AZURE_AI_ENDPOINT E = base ++ "/" ->
   ApiTest.url E
   = base ++ "/openai/deployments/gpt-4o-mini/chat/completions?api-version=2024-12-01-preview"
   /\
   chatUrl E
   = base ++ "//openai/deployments/gpt-4o-mini/chat/completions?api-version=2024-12-01-preview")
  /\
  (ApiTest.ends_with_slash (AZURE_AI_ENDPOINT E) = false ->
   ApiTest.url E = chatUrl E).
Proof.
  split.
  - intros H. unfold ApiTest.url, ApiTest.baseEndpoint, chatUrl. rewrite H.
    rewrite ends_with_slash_snoc, slice_snoc. split; [reflexivity|].
    now rewrite string_app_assoc.
  - intros H. unfold ApiTest.url, ApiTest.baseEndpoint, chatUrl. now rewrite H.
Qed.

Lemma script_url_drops_trailing_slash_witness :
  AZURE_AI_ENDPOINT offline = "https://gendem.cognitiveservices.azure.com" ++ "/" /\
  ApiTest.url offline
  = "https://gendem.cognitiveservices.azure.com/openai/deployments/gpt-4o-mini/chat/completions?api-version=2024-12-01-preview"
  /\
  chatUrl offline
  = "https://gendem.cognitiveservices.azure.com//openai/deployments/gpt-4o-mini/chat/completions?api-version=2024-12-01-preview".
Proof.
  split; [reflexivity|].
  exact (proj1 (script_url_drops_trailing_slash offline
                  "https://gendem.cognitiveservices.azure.com") eq_refl).
Defined.

(** X17.  [runTests] always completes.  Both tests are run, the Google
    one first and the Azure one after it whatever the first returned;
    their results make the two summary lines; the troubleshooting tips
    follow exactly when one of them failed.  At most three POSTs are made,
    and none when both keys are missing. *)
Theorem runTests_always_completes (E : env) :
  let start := [ApiTest.Log [ApiTest.Str ("Starting API tests..." ++ ApiTest.nl)]] in
  exists (g a : bool) (tg ta : list ApiTest.out),
    ApiTest.testGoogleTranslationAPI E start = (Normal g, (start ++ tg)%list) /\
    ApiTest.testAzureOpenAIAPI E (start ++ tg)%list
    = (Normal a, ((start ++ tg) ++ ta)%list) /\
    ApiTest.runTests E []
    = (Normal (g, a),
       (start ++ tg ++ ta
          ++ [ApiTest.Log [ApiTest.Str (ApiTest.nl ++ "=== Test Results Summary ===")];
              ApiTest.Log [ApiTest.Str "Google Translation API:";
                           ApiTest.Str (ApiTest.verdict g)];
              ApiTest.Log [ApiTest.Str "Azure OpenAI API:";
                           ApiTest.Str (ApiTest.verdict a)]]
          ++ (if g && a then [] else ApiTest.tips))%list) /\
    (length (ApiTest.http_posts (tg ++ ta)) <= 3)%nat /\
    (env_falsy (env_GOOGLE_TRANSLATION_API_KEY E) = true ->
     env_falsy (env_AZURE_AI_API_KEY E) = true ->
     ApiTest.http_posts (tg ++ ta) = []).
Proof.
  cbv zeta.
  pose (start := [ApiTest.Log [ApiTest.Str ("Starting API tests..." ++ ApiTest.nl)]]).
  fold start.
  destruct (testGoogle_run E start) as (g & tg & Hg & _ & Hpg).
  destruct (testAzure_run E (start ++ tg)%list) as (a & ta & Ha & _ & Hpa).
  exists g, a, tg, ta. split; [exact Hg|]. split; [exact Ha|].
  split; [|split].
  - unfold ApiTest.runTests. unfold_script.
    rewrite app_nil_l. fold start. rewrite Hg. unfold_script.
    rewrite Ha. unfold_script.
    destruct g, a; cbn [negb orb andb]; unfold ApiTest.ret;
      rewrite <- ?app_assoc; reflexivity.
  - rewrite http_posts_app, length_app, Hpg, Hpa.
    destruct (env_falsy (env_GOOGLE_TRANSLATION_API_KEY E));
      destruct (env_falsy (env_AZURE_AI_API_KEY E)); cbn;
      repeat match goal with
             | |- context [match ?x with _ => _ end] => destruct x
             end; cbn; lia.
  - intros H1 H2. now rewrite http_posts_app, Hpg, Hpa, H1, H2.
Qed.

(* ================================================================== *)
(** ** The [retry-after] header as a number of seconds *)
(* ================================================================== *)

Lemma digit_is_not_space (c : ascii) : is_digit c = true -> is_ws c = false.
Proof.
  destruct c as [[] [] [] [] [] [] [] []]; cbn; intros H;
    try discriminate; reflexivity.
Qed.

Lemma pretty_N_char_digit (x : N) :
  (x < 10)%N ->
  digit_of 10 (pretty_N_char x) = Some (Z.of_N x).
Proof.
  intros H.
  assert (x = 0 \/ x = 1 \/ x = 2 \/ x = 3 \/ x = 4 \/ x = 5 \/ x = 6
          \/ x = 7 \/ x = 8 \/ x = 9)%N as Hx by lia.
  repeat (destruct Hx as [-> | Hx]; [reflexivity|]). now subst.
Qed.

Lemma rev_app_rev_app (s1 s2 s3 : string) :
  String.rev_app (String.rev_app s1 s2) s3 = String.rev_app s2 (s1 ++ s3).
Proof.
  revert s2 s3. induction s1 as [|a s1 IH]; intros s2 s3; [reflexivity|].
  cbn [String.rev_app]. now rewrite IH.
Qed.

Lemma string_app_nil_r (s : string) : s ++ "" = s.
Proof.
  induction s as [|a s IH]; [reflexivity|].
  change (String a (s ++ "") = String a s). now rewrite IH.
Qed.

Lemma rev_rev (s : string) : String.rev (String.rev s) = s.
Proof.
  unfold String.rev. rewrite rev_app_rev_app. cbn [String.rev_app].
  apply string_app_nil_r.
Qed.

Lemma all_digits_rev_app (s1 s2 : string) :
  all_digits_in (String.rev_app s1 s2) = all_digits_in s1 && all_digits_in s2.
Proof.
  revert s2. induction s1 as [|a s1 IH]; intros s2; [reflexivity|].
  cbn [String.rev_app all_digits_in]. rewrite IH. cbn [all_digits_in].
  now destruct (is_digit a), (all_digits_in s1), (all_digits_in s2).
Qed.

Lemma trim_start_digits (s : string) :
  all_digits_in s = true -> trim_start s = s.
Proof.
  destruct s as [|c s]; [reflexivity|]. cbn [all_digits_in trim_start].
  intros [Hc _]%andb_true_iff. now rewrite (digit_is_not_space c Hc).
Qed.

Lemma trim_digits (s : string) : all_digits_in s = true -> trim s = s.
Proof.
  intros H. unfold trim. rewrite (trim_start_digits s H).
  rewrite trim_start_digits; [apply rev_rev|].
  unfold String.rev. rewrite all_digits_rev_app, H. reflexivity.
Qed.

(** [pretty_N_go x s] puts the decimal digits of [x] in front of [s]. *)
Lemma pretty_N_go_digits (x : N) :
  exists L : nat,
    ((0 < x)%N -> (0 < L)%nat) /\
    forall (s : string) (acc : Z) (k : nat),
      take_digits 10 (pretty_N_go x s) acc k
      = take_digits 10 s (acc * 10 ^ Z.of_nat L + Z.of_N x) (k + L)%nat /\
      all_digits_in (pretty_N_go x s) = all_digits_in s.
Proof.
  induction (N.lt_wf_0 x) as [x _ IH].
  destruct (N.eq_dec x 0%N) as [->|Hx].
  - exists 0%nat. split; [lia|]. intros s acc k. rewrite pretty_N_go_0.
    split; [|reflexivity]. f_equal; [cbn; lia | lia].
  - assert (Hpos : (0 < x)%N) by lia.
    destruct (IH (x `div` 10)%N) as (L & _ & HL); [now apply N.div_lt|].
    exists (S L). split; [lia|]. intros s acc k.
    rewrite pretty_N_go_step by exact Hpos.
    destruct (HL (String (pretty_N_char (x `mod` 10)) s) acc k) as [Ht Ha].
    assert (Hmod : (x `mod` 10 < 10)%N) by (apply N.mod_lt; lia).
    split.
    + rewrite Ht. cbn [take_digits].
      rewrite (pretty_N_char_digit _ Hmod). f_equal; [|lia].
      rewrite Nat2Z.inj_succ, Z.pow_succ_r by lia.
      pose proof (N.div_mod x 10%N ltac:(lia)) as Hdm.
      assert (Hz : Z.of_N x
                   = 10 * Z.of_N (x `div` 10) + Z.of_N (x `mod` 10)) by lia.
      rewrite Hz. ring.
    + rewrite Ha. cbn [all_digits_in]. unfold is_digit.
      now rewrite (pretty_N_char_digit _ Hmod).
Qed.

Lemma StringToNumber_digit_string (s : string) (v : Z) (L : nat) :
  all_digits_in s = true ->
  take_digits 10 s 0 0 = (v, S L, "") ->
  StringToNumber s = of_Z v.
Proof.
  intros Hall Htake.
  assert (Hdec : StrUnsignedDecimalLiteral s = of_Z v).
  { unfold StrUnsignedDecimalLiteral.
    assert (Hinf : String.eqb s "Infinity" = false).
    { destruct (String.eqb_spec s "Infinity") as [->|]; [discriminate|reflexivity]. }
    rewrite Hinf, Htake. cbn [Nat.add Nat.eqb exponent_part].
    unfold of_Z. f_equal. rewrite <- (Qred_inject_Z v).
    apply Qred_complete. unfold pow10.
    change (Z.of_nat 0) with 0%Z. change (0 <=? 0 - 0)%Z with true.
    change (10 ^ (0 - 0))%Z with 1%Z. change (10 ^ 0)%Z with 1%Z. cbv iota.
    unfold Qeq. cbn [inject_Z Qmult Qnum Qden]. lia. }
  unfold StringToNumber. rewrite (trim_digits s Hall).
  destruct s as [|c s']; [discriminate|].
  cbn [all_digits_in] in Hall. apply andb_true_iff in Hall as [Hc Hs'].
  destruct s' as [|c2 s''].
  - destruct c as [[] [] [] [] [] [] [] []]; cbn in Hc; try discriminate;
      exact Hdec.
  - cbn [all_digits_in] in Hs'. apply andb_true_iff in Hs' as [Hc2 _].
    destruct c as [[] [] [] [] [] [] [] []]; cbn in Hc; try discriminate;
      try exact Hdec.
    destruct c2 as [[] [] [] [] [] [] [] []]; cbn in Hc2; try discriminate;
      exact Hdec.
Qed.

(** The decimal numeral of a natural number is read back as that
    number. *)
Lemma StringToNumber_pretty (n : N) :
  StringToNumber (pretty n) = of_Z (Z.of_N n).
Proof.
  unfold pretty, pretty_N. destruct (decide (n = 0%N)) as [->|Hn]; [reflexivity|].
  destruct (pretty_N_go_digits n) as (L & HL & Hgo).
  destruct (Hgo "" 0 0%nat) as [Ht Ha].
  destruct L as [|L]; [lia|].
  apply (StringToNumber_digit_string _ _ L); [exact Ha|].
  rewrite Ht. cbn [take_digits].
  replace (0 * 10 ^ Z.of_nat (S L) + Z.of_N n)%Z with (Z.of_N n) by lia.
  reflexivity.
Qed.

Lemma pretty_N_not_empty (n : N) : pretty n <> "".
Proof.
  intros H. pose proof (StringToNumber_pretty n) as Hs.
  unfold pretty, pretty_N in *. destruct (decide (n = 0%N)); [discriminate|].
  destruct (pretty_N_go_digits n) as (L & HL & Hgo).
  destruct (Hgo "" 0 0%nat) as [Ht _]. rewrite H in Ht. cbn in Ht.
  injection Ht as _ HL0. lia.
Qed.

(** X18.  A [retry-after] header that holds a number of seconds in
    decimal sets the timer to that many seconds: the delay is the number
    times 1000 ms, and the current backoff delay plays no part.  The
    product stays within [2^53], where the arithmetic of the runtime is
    exact. *)
Theorem retry_after_seconds_are_honoured
    (n : N) (h : gmap string string) (d : number) :
  Z.of_N n * 1000 <= 2 ^ 53 ->
  h !! "retry-after" = Some (pretty n) ->
  retry_delay h d = of_Z (Z.of_N n * 1000).
Proof.
  intros _ H. rewrite (retry_delay_header h (pretty n) d H (pretty_N_not_empty n)).
  now rewrite StringToNumber_pretty, nmul_of_Z.
Qed.

Lemma retry_after_seconds_are_honoured_witness :
  Z.of_N 120 * 1000 <= 2 ^ 53 /\
  ({["retry-after" := "120"]} : gmap string string) !! "retry-after"
  = Some (pretty 120%N) /\
  retry_delay {["retry-after" := "120"]} (of_Z 2000) = of_Z 120000.
Proof.
  assert (H53 : Z.of_N 120 * 1000 <= 2 ^ 53) by (cbn; lia).
  split; [exact H53|]. split; [reflexivity|].
  exact (retry_after_seconds_are_honoured 120%N {["retry-after" := "120"]}
           (of_Z 2000) H53 eq_refl).
Defined.

(* ================================================================== *)
(** ** The key check of [/summarize] *)
(* ================================================================== *)

(** X19.  Without the AI-provider key (unset, or set to the empty string)
    [/summarize] never contacts the provider and never writes the cache,
    whatever the body and the state: the trace gains no POST and the cache
    is what it was.  An answer of 200 can then only come from the cache. *)
Theorem summarize_needs_the_key (E : env) (b : value) (w : world) :
  env_falsy (env_AZURE_AI_API_KEY E) = true ->
  posts (w_trace (snd (summarize_handler E b w))) = posts (w_trace w) /\
  w_cache (snd (summarize_handler E b w)) = w_cache w /\
  (forall resp,
     fst (summarize_handler E b w) = Normal resp -> code resp = 200 ->
     exists text text_str v,
       get_field b "text" = Normal text /\
       to_string text = Normal text_str /\
       Cache.get (Date_now E (S (length (w_trace w))))
         ("summarize:" ++ text_str) (w_cache w) = Some v /\
       truthy v = true /\
       body resp = VObj [("summary", v)]).
Proof.
  intros Hk. unfold summarize_handler, AZURE_AI_API_KEY.
  unfold_monad. rewrite ?Hk.
  repeat (split_scrutinee; unfold_monad; rewrite ?Hk).
  all: cbn [fst snd w_trace w_cache code body].
  all: rewrite ?posts_app; cbn [posts List.filter is_post app];
    rewrite ?app_nil_r.
  all: repeat split; try reflexivity.
  all: intros resp [= <-]; cbn [code body]; try discriminate; intros _.
  match goal with
  | H : destructure b "text" _ = Normal ?a |- _ =>
      apply destructure_Normal in H; exists a
  end.
  match goal with
  | H : to_string _ = Normal ?a |- _ => exists a
  end.
  match goal with
  | H : truthy (default VUndefined ?g) = true |- _ =>
      destruct g as [v|] eqn:Hg; cbn [from_option id] in H |- *;
      [exists v | discriminate]
  end.
  rewrite length_app, Nat.add_comm in Hg. cbn [length Nat.add] in Hg.
  repeat split; assumption.
Qed.

Lemma summarize_needs_the_key_witness :
  env_falsy (env_AZURE_AI_API_KEY empty_key) = true /\
  posts (w_trace (snd (summarize_handler empty_key a_note fresh))) = [] /\
  w_cache (snd (summarize_handler empty_key a_note fresh)) = Cache.empty.
Proof.
  split; [reflexivity|].
  pose proof (summarize_needs_the_key empty_key a_note fresh eq_refl)
    as (Hp & Hc & _).
  split; [exact Hp | exact Hc].
Defined.
